(** * export_pdf.py: serving a saved HTML page and printing it to PDF

    A shallow embedding of [src/export_pdf.py].  Python [str] values are
    modelled as [string]: the bytes the text has in the file-system
    encoding (UTF-8 with [surrogateescape], so that a file name that is
    not valid UTF-8 is a string too).  Python [int] is [Z], [pathlib.Path]
    the parsed POSIX path it stores (as in CPython 3.11), and the file
    system, the executable search path, the binding of the listener, the
    start of the thread and the browser subprocess are fields of a [World]
    record; each library call that can raise is given the outcomes it has.  The calls that
    act on the outside (binding the listener, starting the thread, running
    the subprocess, shutting the server down, joining the thread) are
    recorded, in order, in a trace threaded through an exception monad. *)

From Stdlib Require Import ZArith List Bool Lia.
From Stdlib Require Import Strings.Ascii Strings.String.
From Stdlib Require Import Numbers.DecimalString Numbers.DecimalZ.
Import ListNotations.

Open Scope list_scope.
Open Scope string_scope.

(** ** Python string primitives *)

Module PyStr.

(** [sep.join(l)] *)
Fixpoint join (sep : string) (l : list string) : string :=
  match l with
  | [] => ""
  | [x] => x
  | x :: t => x ++ sep ++ join sep t
  end.

(** [s.split(sep)] for a one-character separator: never the empty list. *)
Fixpoint split (sep : ascii) (s : string) : list string :=
  match s with
  | "" => [""]
  | String c s' =>
      if Ascii.eqb c sep then "" :: split sep s'
      else match split sep s' with
           | h :: t => String c h :: t
           | [] => [String c ""]
           end
  end.

(** [len(s) - len(s.lstrip(c))]: how many leading [c] the string has. *)
Fixpoint leading (c : ascii) (s : string) : nat :=
  match s with
  | String a s' => if Ascii.eqb a c then S (leading c s') else 0
  | "" => 0
  end.

(** [s[n:]] for [0 <= n]. *)
Fixpoint drop (n : nat) (s : string) : string :=
  match n, s with
  | S n', String _ s' => drop n' s'
  | _, _ => s
  end.

(** [s[:n]] for [0 <= n]. *)
Fixpoint take (n : nat) (s : string) : string :=
  match n, s with
  | S n', String a s' => String a (take n' s')
  | _, _ => ""
  end.

(** [s.rfind(c)]: the index of the last [c], or [-1]. *)
Fixpoint rfind (c : ascii) (s : string) : Z :=
  match s with
  | "" => (-1)%Z
  | String a s' =>
      let i := rfind c s' in
      if (0 <=? i)%Z then (i + 1)%Z
      else if Ascii.eqb a c then 0%Z else (-1)%Z
  end.

(** [sub in s] *)
Fixpoint contains (sub s : string) : bool :=
  prefix sub s ||
  match s with
  | "" => false
  | String _ s' => contains sub s'
  end.

(** [str(n)] for an [int]. *)
Definition of_int (n : Z) : string := NilZero.string_of_int (Z.to_int n).

(** [int(s)] on the output of [str]. *)
Definition to_int (s : string) : option Z :=
  option_map Z.of_int (NilZero.int_of_string s).

(** Truth value of a string: the empty string is false. *)
Definition truthy (s : string) : bool := negb (s =? "").

Definition nl : string := String "010"%char "".

(** [c * n] *)
Fixpoint replicate (n : nat) (c : ascii) : string :=
  match n with
  | 0 => ""
  | S n' => String c (replicate n' c)
  end.

End PyStr.

(** ** pathlib: pure POSIX paths *)

Module pathlib.

(** What a path object holds once parsed: the root (nothing, one slash or
    two) and the components after it. *)
Record Path : Type := mkPath { root : string; parts : list string }.

Definition kept_component (x : string) : bool :=
  negb (x =? "") && negb (x =? ".").

(** [pathlib.Path(s)]: more than two leading slashes count as one, empty
    and ["."] components are dropped. *)
Definition of_str (s : string) : Path :=
  let n := PyStr.leading "/"%char s in
  let rt := match n with 0 => "" | 2 => "//" | _ => "/" end in
  mkPath rt (filter kept_component (PyStr.split "/"%char (PyStr.drop n s))).

(** A path string that [pathlib] leaves as it is: at most two leading
    slashes, then either nothing more (and at least one slash) or
    components none of which is empty or a lone dot. *)
Definition is_normal (p : string) : bool :=
  let n := PyStr.leading "/"%char p in
  let rel := PyStr.drop n p in
  (n <=? 2)%nat &&
  (if rel =? "" then (0 <? n)%nat
   else forallb kept_component (PyStr.split "/"%char rel)).

(** [str(p)] *)
Definition str (p : Path) : string :=
  let s := root p ++ PyStr.join "/" (parts p) in
  if s =? "" then "." else s.

(** [p.name] *)
Definition name (p : Path) : string := last (parts p) "".

(** [p.parent] *)
Definition parent (p : Path) : Path := mkPath (root p) (removelast (parts p)).

(** [p.suffix] *)
Definition suffix (p : Path) : string :=
  let nm := name p in
  let i := PyStr.rfind "."%char nm in
  if ((0 <? i) && (i <? Z.of_nat (length nm) - 1))%Z
  then PyStr.drop (Z.to_nat i) nm
  else "".

(** [p.stem] *)
Definition stem (p : Path) : string :=
  let nm := name p in
  let i := PyStr.rfind "."%char nm in
  if ((0 <? i) && (i <? Z.of_nat (length nm) - 1))%Z
  then PyStr.take (Z.to_nat i) nm
  else nm.

End pathlib.

(** ** Exceptions, the outside world, and the effect monad *)

(** The exceptions the script can end with.  [ValueError] is raised by
    pathlib and carries the offending value; [OSError] stands for the
    operating-system errors other than "not found" (permission denied,
    name too long, address in use, ...); [UnicodeEncodeError] carries the
    string that has no UTF-8 encoding. *)
Inductive exn : Type :=
| FileNotFoundError (msg : string)
| RuntimeError (msg : string)
| ValueError (what : string)
| OSError (msg : string)
| UnicodeEncodeError (object : string)
| UnicodeDecodeError (msg : string)
| CalledProcessError (returncode : Z) (cmd : list string).

Inductive outcome (A : Type) : Type :=
| Returned (a : A)
| Raised (e : exn).
Arguments Returned {A} a.
Arguments Raised {A} e.

(** What [subprocess.run(..., capture_output=True, text=True)] does with a
    command line: the process exits with a status and its output is
    decoded, or the call itself raises (the program cannot be started, or
    what it wrote is not text in the locale's encoding). *)
Inductive run_outcome : Type :=
| Exited (returncode : Z) (stdout stderr : string)
| RunRaised (e : exn).

(** The machine the script runs on.  [w_is_file] and [w_exists] are
    [Path.is_file()] and [Path.exists()] on the string form of the path:
    they answer, or re-raise the [OSError] of [os.stat] when it is not one
    of the "no such file" kind (permission denied, name too long).  The
    fields are not tied to one another, so a [World] may describe more than
    any real machine does; what is proved for every [World] holds for the
    real ones. *)
Record World : Type := mkWorld {
  w_is_file : string -> outcome bool;
  w_exists : string -> outcome bool;
  w_which : string -> option string;      (* shutil.which *)
  w_expanduser : pathlib.Path -> pathlib.Path;
  w_resolve : pathlib.Path -> pathlib.Path;
  w_bind_error : option exn;              (* why the listener cannot be bound *)
  w_ephemeral_port : Z;                   (* the port given for a bind to port 0 *)
  w_thread_error : option exn;            (* why no thread can be started *)
  w_run : list string -> run_outcome      (* running a command line *)
}.

Definition with_which (w : World) (which : string -> option string) : World :=
  mkWorld (w_is_file w) (w_exists w) which (w_expanduser w) (w_resolve w)
          (w_bind_error w) (w_ephemeral_port w) (w_thread_error w) (w_run w).

Record HTTPServer : Type := mkServer {
  server_address : string * Z;
  served_directory : string
}.

Record Thread : Type := mkThread {
  thread_target : HTTPServer;             (* runs [serve_forever] of this server *)
  thread_daemon : bool
}.

Record CompletedProcess : Type := mkCompleted {
  cp_returncode : Z;
  cp_stdout : string;
  cp_stderr : string
}.

(** The calls that reach outside the process, in the order they are made. *)
Inductive event : Type :=
| ServerBind (directory : string) (host : string) (port : Z)
| ThreadStart (t : Thread)
| SubprocessRun (command : list string)
| ServerShutdown (s : HTTPServer)
| ThreadJoin (t : Thread) (timeout : Z).

Definition trace : Type := list event.

Definition M (A : Type) : Type := trace -> outcome A * trace.

Definition ret {A} (a : A) : M A := fun t => (Returned a, t).

Definition raise {A} (e : exn) : M A := fun t => (Raised e, t).

Definition bind {A B} (m : M A) (k : A -> M B) : M B :=
  fun t =>
    match m t with
    | (Returned a, t') => k a t'
    | (Raised e, t') => (Raised e, t')
    end.

Definition emit (e : event) : M unit := fun t => (Returned tt, (t ++ [e])%list).

Definition lift {A} (r : outcome A) : M A := fun t => (r, t).

(** [try: body finally: handler].  The handler runs whatever the body did;
    the body's result or exception stands unless the handler itself raises. *)
Definition try_finally {A} (body : M A) (handler : M unit) : M A :=
  fun t =>
    match body t with
    | (r, t') =>
        match handler t' with
        | (Returned _, t'') => (r, t'')
        | (Raised e, t'') => (Raised e, t'')
        end
    end.

Declare Scope py_scope.
Delimit Scope py_scope with py.
Notation "x <- m ;; k" := (bind m (fun x => k))
  (at level 100, m at next level, right associativity) : py_scope.
Notation "' pat <- m ;; k" := (bind m (fun x => match x with pat => k end))
  (at level 100, pat pattern, m at next level, right associativity) : py_scope.
Notation "m ;;; k" := (bind m (fun _ => k))
  (at level 100, right associativity) : py_scope.

Definition result_of {A} (m : M A) (t : trace) : outcome A := fst (m t).
Definition trace_of {A} (m : M A) (t : trace) : trace := snd (m t).

(** ** Library calls the script makes *)

Module pathlib_fs.
Import pathlib.

(** [p.is_file()] and [p.exists()] ask the file system about [str(p)]. *)
Definition is_file (w : World) (p : Path) : outcome bool := w_is_file w (str p).
Definition exists_ (w : World) (p : Path) : outcome bool := w_exists w (str p).

(** [p.with_suffix(sfx)] *)
Definition with_suffix (p : Path) (sfx : string) : outcome Path :=
  if PyStr.contains "/" sfx then Raised (ValueError sfx)
  else if (PyStr.truthy sfx && negb (prefix "." sfx)) || (sfx =? ".")
  then Raised (ValueError sfx)
  else
    let nm := name p in
    if nm =? "" then Raised (ValueError (str p))
    else
      let old_suffix := suffix p in
      let nm' :=
        if old_suffix =? "" then nm ++ sfx
        else PyStr.take (length nm - length old_suffix) nm ++ sfx in
      Returned (mkPath (root p) (removelast (parts p) ++ [nm'])%list).

End pathlib_fs.

Module urllib.

Definition hex_digit (n : nat) : ascii :=
  if (n <? 10)%nat then ascii_of_nat (48 + n) else ascii_of_nat (55 + n).

(** The characters [quote] never escapes: letters, digits and [_.-~]. *)
Definition always_safe (c : ascii) : bool :=
  let n := nat_of_ascii c in
  ((65 <=? n) && (n <=? 90))%nat || ((97 <=? n) && (n <=? 122))%nat
  || ((48 <=? n) && (n <=? 57))%nat
  || Ascii.eqb c "_" || Ascii.eqb c "." || Ascii.eqb c "-" || Ascii.eqb c "~".

Definition quote_byte (c : ascii) : string :=
  if always_safe c || Ascii.eqb c "/" then String c ""
  else
    let n := nat_of_ascii c in
    String "%" (String (hex_digit (n / 16)) (String (hex_digit (n mod 16)) "")).

(** [urllib.parse.quote_from_bytes(bs)] with its default [safe='/']. *)
Fixpoint quote_from_bytes (s : string) : string :=
  match s with
  | "" => ""
  | String c s' => quote_byte c ++ quote_from_bytes s'
  end.

Definition in_range (lo hi : nat) (c : ascii) : bool :=
  ((lo <=? nat_of_ascii c) && (nat_of_ascii c <=? hi))%nat.

Definition continuation (c : ascii) : bool := in_range 128 191 c.

(** First and second byte of a three-byte sequence: no overlong form and
    no surrogate. *)
Definition three_byte_start (a b : ascii) : bool :=
  (in_range 224 224 a && in_range 160 191 b)
  || (in_range 225 236 a && continuation b)
  || (in_range 237 237 a && in_range 128 159 b)
  || (in_range 238 239 a && continuation b).

(** First and second byte of a four-byte sequence: no overlong form and
    nothing above U+10FFFF. *)
Definition four_byte_start (a b : ascii) : bool :=
  (in_range 240 240 a && in_range 144 191 b)
  || (in_range 241 243 a && continuation b)
  || (in_range 244 244 a && in_range 128 143 b).

(** The bytes are the UTF-8 encoding of some text.  A string for which
    this fails stands for a Python [str] with lone surrogates, which
    [str.encode('utf-8')] refuses. *)
Fixpoint valid_utf8 (s : string) : bool :=
  match s with
  | "" => true
  | String a rest =>
      if in_range 0 127 a then valid_utf8 rest
      else
        match rest with
        | "" => false
        | String b rest2 =>
            if in_range 194 223 a then continuation b && valid_utf8 rest2
            else
              match rest2 with
              | "" => false
              | String c rest3 =>
                  if three_byte_start a b
                  then continuation c && valid_utf8 rest3
                  else
                    match rest3 with
                    | "" => false
                    | String d rest4 =>
                        four_byte_start a b && continuation c
                        && continuation d && valid_utf8 rest4
                    end
              end
        end
  end.

(** [urllib.parse.quote(s)] with its default [safe='/']: the string is
    encoded to UTF-8 first, which raises when it cannot be, and the bytes
    are then quoted. *)
Definition quote (s : string) : outcome string :=
  if valid_utf8 s then Returned (quote_from_bytes s)
  else Raised (UnicodeEncodeError s).

End urllib.

(** [http.server.ThreadingHTTPServer(address, handler)]: binds and listens,
    or raises when the socket cannot be bound; a request for port 0 gets
    the port the operating system picks. *)
Definition ThreadingHTTPServer (w : World) (address : string * Z)
    (directory : string) : M HTTPServer :=
  let host := fst address in
  let port := if (snd address =? 0)%Z then w_ephemeral_port w else snd address in
  match w_bind_error w with
  | Some e => raise e
  | None =>
      (emit (ServerBind directory host port) ;;;
       ret (mkServer (host, port) directory))%py
  end.

(** [threading.Thread(target=server.serve_forever, daemon=...)] then
    [start()], which raises when no thread can be started. *)
Definition Thread_start (w : World) (server : HTTPServer) (daemon : bool)
    : M Thread :=
  let thread := mkThread server daemon in
  match w_thread_error w with
  | Some e => raise e
  | None => (emit (ThreadStart thread) ;;; ret thread)%py
  end.

(** [subprocess.run(command, check=..., capture_output=True, text=True)] *)
Definition subprocess_run (w : World) (command : list string) (check : bool)
    : M CompletedProcess :=
  (emit (SubprocessRun command) ;;;
   match w_run w command with
   | RunRaised e => raise e
   | Exited rc out err =>
       if check && negb (rc =? 0)%Z then raise (CalledProcessError rc command)
       else ret (mkCompleted rc out err)
   end)%py.

(** ** The script *)

Definition candidates : list string :=
  ["google-chrome"; "chromium-browser"; "chromium"; "chrome"; "msedge"].

(** The [for candidate in (...)] loop of [find_browser]. *)
Fixpoint search_candidates (w : World) (names : list string) : option string :=
  match names with
  | [] => None
  | candidate :: rest =>
      match w_which w candidate with
      | Some resolved =>
          if PyStr.truthy resolved then Some resolved
          else search_candidates w rest
      | None => search_candidates w rest
      end
  end.

Definition find_browser (w : World) (explicit_path : option string)
    : outcome string :=
  let given :=
    match explicit_path with
    | Some e => if PyStr.truthy e then Some e else None
    | None => None
    end in
  match given with
  | Some e =>
      let browser_path := pathlib.of_str e in
      let not_found :=
        Raised (FileNotFoundError
                  ("Browser binary not found at provided path: "
                   ++ pathlib.str browser_path)) in
      match pathlib_fs.is_file w browser_path with
      | Raised err => Raised err
      | Returned false => not_found
      | Returned true =>
          match pathlib_fs.exists_ w browser_path with
          | Raised err => Raised err
          | Returned false => not_found
          | Returned true => Returned (pathlib.str browser_path)
          end
      end
  | None =>
      match search_candidates w candidates with
      | Some resolved => Returned resolved
      | None =>
          Raised (FileNotFoundError
            "No Chrome/Chromium executable found. Use --browser to point to an existing binary.")
      end
  end.

Definition start_server (w : World) (root_directory : pathlib.Path)
    : M (HTTPServer * Thread) :=
  (server <- ThreadingHTTPServer w ("127.0.0.1", 0%Z)
               (pathlib.str root_directory) ;;
   thread <- Thread_start w server true ;;
   ret (server, thread))%py.

Definition build_print_command (browser url : string)
    (output_pdf : pathlib.Path) (wait_ms : Z) : list string :=
  [ browser;
    "--headless=new";
    "--disable-gpu";
    "--no-sandbox";
    "--virtual-time-budget=" ++ PyStr.of_int wait_ms;
    "--print-to-pdf=" ++ pathlib.str output_pdf;
    url ].

(** The URL [export_to_pdf] asks the browser to load. *)
Definition page_url (server : HTTPServer) (quoted_name : string) : string :=
  let '(host, port) := server_address server in
  "http://" ++ host ++ ":" ++ PyStr.of_int port ++ "/" ++ quoted_name.

Definition failure_message (command : list string) (result : CompletedProcess)
    : string :=
  "Browser failed to generate PDF." ++ PyStr.nl
  ++ "Command: " ++ PyStr.join " " command ++ PyStr.nl
  ++ "stdout: " ++ cp_stdout result ++ PyStr.nl
  ++ "stderr: " ++ cp_stderr result.

Definition export_to_pdf (w : World) (html_path output_pdf : pathlib.Path)
    (wait_ms : Z) (browser : string) : M unit :=
  ('(server, thread) <- start_server w (pathlib.parent html_path) ;;
   quoted_name <- lift (urllib.quote (pathlib.name html_path)) ;;
   let url := page_url server quoted_name in
   try_finally
     (let command := build_print_command browser url output_pdf wait_ms in
      result <- subprocess_run w command false ;;
      if negb (cp_returncode result =? 0)%Z
      then raise (RuntimeError (failure_message command result))
      else ret tt)
     (emit (ServerShutdown server) ;;;
      emit (ThreadJoin thread 2)))%py.

(** What [argparse] hands to [main]. *)
Record Namespace : Type := mkArgs {
  html_file : pathlib.Path;
  output_pdf : option pathlib.Path;
  browser : option string;
  wait_ms : Z
}.

Definition main (w : World) (args : Namespace) : M unit :=
  let html_path := w_resolve w (w_expanduser w (html_file args)) in
  (is_regular <- lift (pathlib_fs.is_file w html_path) ;;
   if negb is_regular
   then raise (FileNotFoundError
                 ("HTML file not found: " ++ pathlib.str html_path))
   else
     output <- lift match output_pdf args with
                    | Some o => Returned (w_resolve w (w_expanduser w o))
                    | None => pathlib_fs.with_suffix html_path ".pdf"
                    end ;;
     browser_path <- lift (find_browser w (browser args)) ;;
     export_to_pdf w html_path output (wait_ms args) browser_path)%py.

(** What the loop of [find_browser] accepts for a candidate: a non-empty
    answer of [shutil.which]. *)
Definition resolves (w : World) (candidate : string) : option string :=
  match w_which w candidate with
  | Some resolved => if PyStr.truthy resolved then Some resolved else None
  | None => None
  end.

Definition not_found_message : string :=
  "No Chrome/Chromium executable found. Use --browser to point to an existing binary.".

(** The server, thread and command line of one call of [export_to_pdf]. *)
Definition bound_server (w : World) (html_path : pathlib.Path) : HTTPServer :=
  mkServer ("127.0.0.1", w_ephemeral_port w)
           (pathlib.str (pathlib.parent html_path)).

Definition server_thread (w : World) (html_path : pathlib.Path) : Thread :=
  mkThread (bound_server w html_path) true.

Definition export_command (w : World) (html_path output_pdf : pathlib.Path)
    (wait_ms : Z) (browser : string) : list string :=
  build_print_command browser
    (page_url (bound_server w html_path)
       (urllib.quote_from_bytes (pathlib.name html_path)))
    output_pdf wait_ms.

(** The listener is bound and its thread started without error. *)
Definition server_starts (w : World) : Prop :=
  w_bind_error w = None /\ w_thread_error w = None.

(** The path of the HTML file with its extension replaced by [.pdf]: same
    root and directory, the stem of the name followed by [.pdf]. *)
Definition default_output (html_path : pathlib.Path) : pathlib.Path :=
  pathlib.mkPath (pathlib.root html_path)
    (removelast (pathlib.parts html_path)
     ++ [(pathlib.stem html_path ++ ".pdf")%string])%list.

(** Characters a URL path may hold after quoting. *)
Definition url_char (c : ascii) : bool :=
  urllib.always_safe c || Ascii.eqb c "/" || Ascii.eqb c "%".

Fixpoint string_forall (f : ascii -> bool) (s : string) : bool :=
  match s with
  | "" => true
  | String c s' => f c && string_forall f s'
  end.

Definition hex_value (c : ascii) : option nat :=
  let n := nat_of_ascii c in
  if ((48 <=? n) && (n <=? 57))%nat then Some (n - 48)
  else if ((65 <=? n) && (n <=? 70))%nat then Some (n - 55)
  else if ((97 <=? n) && (n <=? 102))%nat then Some (n - 87)
  else None.

(** [urllib.parse.unquote] on bytes: the inverse the browser's side applies
    to the path of the URL. *)
Fixpoint unquote (s : string) : string :=
  match s with
  | "" => ""
  | String c rest =>
      match rest with
      | String h (String l rest') =>
          if Ascii.eqb c "%" then
            match hex_value h, hex_value l with
            | Some a, Some b => String (ascii_of_nat (16 * a + b)) (unquote rest')
            | _, _ => String c (unquote rest)
            end
          else String c (unquote rest)
      | _ => String c (unquote rest)
      end
  end.

(** ** Concrete worlds used as examples *)

Module Examples.

Definition identity_path (p : pathlib.Path) : pathlib.Path := p.

(** A page saved as [caf\xe9.htm]: the name is Latin-1, not UTF-8. *)
Definition latin1_name : string := "caf" ++ String "233"%char ".htm".

Definition regular_files : list string :=
  [ "chrome"; "./chrome"; "/usr/bin/chromium"; "/home/user/report.htm";
    "/home/user/" ++ latin1_name ].

Definition listed (s : string) (l : list string) : bool :=
  existsb (String.eqb s) l.

(** A file name of 300 characters, longer than a file name can be. *)
Definition long_name : string := PyStr.replicate 300 "a".

(** What [os.stat] lets [is_file()] and [exists()] say: the over-long name
    is refused with an error that is passed on, the files listed are
    regular files, nothing else is there. *)
Definition stat_answer (s : string) : outcome bool :=
  if s =? long_name
  then Raised (OSError "[Errno 36] File name too long")
  else Returned (listed s regular_files).

(** A machine with [/usr/bin/chromium] installed and a [chrome] binary in
    the working directory [/home/user]; the listener and its thread start;
    the browser exits with status 1 and writes [boom] to its standard
    error. *)
Definition failing_world : World :=
  mkWorld
    stat_answer
    stat_answer
    (fun name => if name =? "chromium" then Some "/usr/bin/chromium" else None)
    identity_path
    (fun p => match pathlib.root p with
              | "" => pathlib.mkPath "/" ("home" :: "user" :: pathlib.parts p)
              | _ => p
              end)
    None
    40123%Z
    None
    (fun _ => Exited 1 "" "boom").

Definition with_run (w : World) (run : list string -> run_outcome) : World :=
  mkWorld (w_is_file w) (w_exists w) (w_which w) (w_expanduser w)
          (w_resolve w) (w_bind_error w) (w_ephemeral_port w)
          (w_thread_error w) run.

(** The same machine with a browser that prints and exits with status 0. *)
Definition working_world : World :=
  with_run failing_world (fun _ => Exited 0 "" "").

(** The same machine where the browser file cannot be executed. *)
Definition unlaunchable_world : World :=
  with_run failing_world (fun _ => RunRaised (OSError "Permission denied")).

Definition report_htm : pathlib.Path :=
  pathlib.of_str "/home/user/report.htm".

Definition report_pdf : pathlib.Path :=
  pathlib.of_str "/home/user/report.pdf".

Definition latin1_htm : pathlib.Path :=
  pathlib.of_str ("/home/user/" ++ latin1_name).

(** [export_pdf.py report.htm], run in [/home/user]. *)
Definition report_args : Namespace :=
  mkArgs (pathlib.of_str "report.htm") None None 10000.

(** [export_pdf.py report.htm --browser ./chrome], run in [/home/user]. *)
Definition dot_slash_args : Namespace :=
  mkArgs (pathlib.of_str "report.htm") None (Some "./chrome") 10000.

End Examples.

(** ** Well-formed paths *)

Definition differs_from (sep c : ascii) : bool := negb (Ascii.eqb c sep).

Definition not_slash : ascii -> bool := differs_from "/".

(** What holds of every path object pathlib builds: the root is nothing,
    one slash or two, and no component is empty, a lone dot, or has a
    slash inside. *)
Definition valid_path (p : pathlib.Path) : bool :=
  ((pathlib.root p =? "") || (pathlib.root p =? "/")
   || (pathlib.root p =? "//"))
  && forallb (fun x => pathlib.kept_component x && string_forall not_slash x)
       (pathlib.parts p).

(** The output path [main] settles on, before it looks for the browser. *)
Definition chosen_output (w : World) (args : Namespace)
    (html_path : pathlib.Path) : outcome pathlib.Path :=
  match output_pdf args with
  | Some o => Returned (w_resolve w (w_expanduser w o))
  | None => pathlib_fs.with_suffix html_path ".pdf"
  end.

(** Everything one call of [export_to_pdf] adds to the trace. *)
Definition export_events (w : World) (html_path output_pdf : pathlib.Path)
    (wait_ms : Z) (browser : string) : list event :=
  [ ServerBind (pathlib.str (pathlib.parent html_path)) "127.0.0.1"
      (w_ephemeral_port w);
    ThreadStart (server_thread w html_path);
    SubprocessRun (export_command w html_path output_pdf wait_ms browser);
    ServerShutdown (bound_server w html_path);
    ThreadJoin (server_thread w html_path) 2 ].

Module MoreExamples.

(** An HTML page saved under a name that ends in [.pdf]. *)
Definition slides_pdf : pathlib.Path := pathlib.of_str "/home/user/slides.pdf".

(** [export_pdf.py missing.htm] and [export_pdf.py report.htm out/r.pdf]. *)
Definition missing_args : Namespace :=
  mkArgs (pathlib.of_str "missing.htm") None None 10000.

Definition explicit_args : Namespace :=
  mkArgs (pathlib.of_str "report.htm") (Some (pathlib.of_str "out/r.pdf"))
         (Some "/usr/bin/chromium") 5000.

End MoreExamples.

(** * Properties *)

(** ** Strings and paths *)

Section StringFacts.
Import PyStr.

Lemma split_not_nil (sep : ascii) (s : string) : split sep s <> [].
Proof.
  destruct s as [|c s]; simpl; [discriminate|].
  destruct (Ascii.eqb c sep); [discriminate|].
  destruct (split sep s); discriminate.
Qed.

Lemma join_cons (sep x y : string) (l : list string) :
  join sep (x :: y :: l) = x ++ sep ++ join sep (y :: l).
Proof. reflexivity. Qed.

(** Splitting on a character and joining on it again is the identity. *)
Lemma join_split (sep : ascii) (s : string) :
  join (String sep "") (split sep s) = s.
Proof.
  induction s as [|c s IH]; [reflexivity|].
  simpl split. destruct (Ascii.eqb c sep) eqn:E.
  - apply Ascii.eqb_eq in E; subst c.
    destruct (split sep s) as [|h t] eqn:Hs; [now apply split_not_nil in Hs|].
    rewrite join_cons, IH. reflexivity.
  - destruct (split sep s) as [|h t] eqn:Hs; [now apply split_not_nil in Hs|].
    destruct t as [|h' t].
    + simpl in *. now subst.
    + rewrite <- IH, !join_cons. reflexivity.
Qed.

Lemma leading_drop (c : ascii) (s : string) :
  s = replicate (leading c s) c ++ drop (leading c s) s.
Proof.
  induction s as [|a s IH]; [reflexivity|].
  simpl. destruct (Ascii.eqb a c) eqn:E; [|reflexivity].
  apply Ascii.eqb_eq in E; subst a. simpl. now rewrite <- IH.
Qed.

Lemma filter_all {A} (f : A -> bool) (l : list A) :
  forallb f l = true -> filter f l = l.
Proof.
  induction l as [|x l IH]; simpl; [reflexivity|].
  intros H. apply andb_true_iff in H as [Hx Hl].
  rewrite Hx, IH by assumption. reflexivity.
Qed.

Lemma append_empty_r (s : string) : s ++ "" = s.
Proof. induction s; simpl; congruence. Qed.

Lemma append_assoc (a b c : string) : (a ++ b) ++ c = a ++ b ++ c.
Proof. induction a; simpl; congruence. Qed.

Lemma length_append (a b : string) : length (a ++ b) = length a + length b.
Proof. induction a; simpl; congruence. Qed.

Lemma truthy_false (s : string) : truthy s = false <-> s = "".
Proof.
  unfold truthy. rewrite negb_false_iff. apply String.eqb_eq.
Qed.

Lemma truthy_true (s : string) : truthy s = true <-> s <> "".
Proof.
  unfold truthy. rewrite negb_true_iff. apply String.eqb_neq.
Qed.

Lemma prefix_append (a b : string) : prefix a (a ++ b) = true.
Proof.
  induction a as [|c a IH]; simpl; [now destruct b|].
  destruct (ascii_dec c c); [exact IH | congruence].
Qed.

Lemma contains_prefix (sub s : string) :
  prefix sub s = true -> contains sub s = true.
Proof. destruct s; simpl; intros ->; reflexivity. Qed.

Lemma contains_append (sub before after : string) :
  contains sub (before ++ sub ++ after) = true.
Proof.
  induction before as [|c before IH]; simpl.
  - apply contains_prefix, prefix_append.
  - rewrite IH. apply orb_true_r.
Qed.

Lemma contains_within (sub before after s : string) :
  s = before ++ sub ++ after -> contains sub s = true.
Proof. intros ->. apply contains_append. Qed.

End StringFacts.

Section PathFacts.
Import PyStr pathlib.

Lemma str_of_str_normal (p : string) :
  is_normal p = true -> str (of_str p) = p.
Proof.
  unfold is_normal, str, of_str. intros H.
  apply andb_true_iff in H as [Hn H].
  pose proof (leading_drop "/"%char p) as Hp.
  set (n := leading "/"%char p) in *.
  set (rel := drop n p) in *.
  assert (Hroot : match n with 0 => "" | 2 => "//" | _ => "/" end
                  = replicate n "/"%char).
  { apply Nat.leb_le in Hn.
    destruct n as [|[|[|n]]]; try reflexivity; lia. }
  cbn [root parts]. rewrite Hroot.
  destruct (rel =? "") eqn:Erel.
  - apply String.eqb_eq in Erel. rewrite Erel in *.
    cbn. rewrite append_empty_r in *. rewrite <- Hp.
    destruct p; [|reflexivity].
    subst n. discriminate.
  - rewrite (filter_all _ _ H), join_split, <- Hp.
    apply String.eqb_neq in Erel.
    destruct p; [|reflexivity].
    exfalso. apply Erel. reflexivity.
Qed.

End PathFacts.

(** ** find_browser *)

Section FindBrowser.
Import PyStr pathlib.

Variable w : World.

Lemma find_browser_given (p : string) :
  p <> "" ->
  find_browser w (Some p) =
    match pathlib_fs.is_file w (of_str p) with
    | Raised err => Raised err
    | Returned false =>
        Raised (FileNotFoundError
                  ("Browser binary not found at provided path: "
                   ++ str (of_str p)))
    | Returned true =>
        match pathlib_fs.exists_ w (of_str p) with
        | Raised err => Raised err
        | Returned false =>
            Raised (FileNotFoundError
                      ("Browser binary not found at provided path: "
                       ++ str (of_str p)))
        | Returned true => Returned (str (of_str p))
        end
    end.
Proof.
  intros Hp. unfold find_browser.
  apply truthy_true in Hp. rewrite Hp. reflexivity.
Qed.

Lemma search_first (names before after : list string) (c r : string) :
  names = (before ++ c :: after)%list ->
  Forall (fun c' => resolves w c' = None) before ->
  resolves w c = Some r ->
  search_candidates w names = Some r.
Proof.
  intros -> Hbefore Hc.
  induction Hbefore as [|c' before Hc' _ IH]; simpl.
  - unfold resolves in Hc.
    destruct (w_which w c) as [x|]; [|discriminate].
    destruct (truthy x); [assumption|discriminate].
  - unfold resolves in Hc'.
    destruct (w_which w c') as [x|]; [|exact IH].
    destruct (truthy x); [discriminate|exact IH].
Qed.

Lemma search_none (names : list string) :
  Forall (fun c => resolves w c = None) names ->
  search_candidates w names = None.
Proof.
  induction 1 as [|c names Hc _ IH]; simpl; [reflexivity|].
  unfold resolves in Hc.
  destruct (w_which w c) as [x|]; [|exact IH].
  destruct (truthy x); [discriminate|exact IH].
Qed.

End FindBrowser.

(** C3: the claim asks for the given string back, unchanged.  The code
    fails it at [./chrome], a regular file in the working directory: the
    check passes and [find_browser] returns [chrome], a name without a
    slash, and that name, not the file that was checked, is the program
    [main] hands to [subprocess.run]. *)
Theorem find_browser_explicit_not_verbatim :
  w_is_file Examples.failing_world "./chrome" = Returned true
  /\ w_exists Examples.failing_world "./chrome" = Returned true
  /\ find_browser Examples.failing_world (Some "./chrome") = Returned "chrome"
  /\ find_browser Examples.failing_world (Some "./chrome")
     <> Returned "./chrome"
  /\ PyStr.contains "/" "chrome" = false
  /\ exists arguments : list string,
       In (SubprocessRun ("chrome" :: arguments))
          (trace_of (main Examples.working_world Examples.dot_slash_args) []).
Proof.
  split; [reflexivity|]. split; [reflexivity|]. split; [reflexivity|].
  split; [discriminate|]. split; [reflexivity|].
  eexists. vm_compute. right. right. left. reflexivity.
Qed.

(** C4, as the code has it: when the checks on a non-empty explicit path
    answer that it is no existing regular file, [find_browser] raises
    [FileNotFoundError] with the attempted path in the message; when a
    check itself raises, that error is passed on.  Either way the answer
    of the executable search plays no part. *)
Theorem find_browser_explicit_missing (w : World)
    (which : string -> option string) (p : string) :
  p <> "" ->
  (pathlib_fs.is_file w (pathlib.of_str p) = Returned false
   \/ (pathlib_fs.is_file w (pathlib.of_str p) = Returned true
       /\ pathlib_fs.exists_ w (pathlib.of_str p) = Returned false) ->
   find_browser (with_which w which) (Some p)
   = Raised (FileNotFoundError
               ("Browser binary not found at provided path: "
                ++ pathlib.str (pathlib.of_str p)))
   /\ (pathlib.is_normal p = true ->
       find_browser (with_which w which) (Some p)
       = Raised (FileNotFoundError
                   ("Browser binary not found at provided path: " ++ p))))
  /\ (forall e : exn,
        pathlib_fs.is_file w (pathlib.of_str p) = Raised e
        \/ (pathlib_fs.is_file w (pathlib.of_str p) = Returned true
            /\ pathlib_fs.exists_ w (pathlib.of_str p) = Raised e) ->
        find_browser (with_which w which) (Some p) = Raised e).
Proof.
  intros Hp.
  rewrite (find_browser_given _ p Hp).
  change (pathlib_fs.is_file (with_which w which) (pathlib.of_str p))
    with (pathlib_fs.is_file w (pathlib.of_str p)).
  change (pathlib_fs.exists_ (with_which w which) (pathlib.of_str p))
    with (pathlib_fs.exists_ w (pathlib.of_str p)).
  split.
  - intros Hmissing.
    assert (Hresult :
      match pathlib_fs.is_file w (pathlib.of_str p) with
      | Raised err => Raised err
      | Returned false =>
          Raised (FileNotFoundError
                    ("Browser binary not found at provided path: "
                     ++ pathlib.str (pathlib.of_str p)))
      | Returned true =>
          match pathlib_fs.exists_ w (pathlib.of_str p) with
          | Raised err => Raised err
          | Returned false =>
              Raised (FileNotFoundError
                        ("Browser binary not found at provided path: "
                         ++ pathlib.str (pathlib.of_str p)))
          | Returned true => Returned (pathlib.str (pathlib.of_str p))
          end
      end
      = Raised (FileNotFoundError
                  ("Browser binary not found at provided path: "
                   ++ pathlib.str (pathlib.of_str p)))).
    { destruct Hmissing as [-> | [-> ->]]; reflexivity. }
    rewrite Hresult. split; [reflexivity|].
    intros Hn. now rewrite str_of_str_normal.
  - intros e [-> | [-> ->]]; reflexivity.
Qed.

Lemma find_browser_explicit_missing_witness :
  "/opt/chrome" <> ""
  /\ pathlib_fs.is_file Examples.failing_world (pathlib.of_str "/opt/chrome")
     = Returned false
  /\ find_browser
       (with_which Examples.failing_world (fun _ => Some "/usr/bin/chromium"))
       (Some "/opt/chrome")
     = Raised (FileNotFoundError
                 "Browser binary not found at provided path: /opt/chrome").
Proof.
  assert (Hp : "/opt/chrome" <> "") by discriminate.
  split; [exact Hp|]. split; [reflexivity|].
  exact (proj1 (proj1 (find_browser_explicit_missing Examples.failing_world
                         (fun _ => Some "/usr/bin/chromium") "/opt/chrome" Hp)
                  (or_introl eq_refl))).
Defined.

(** C4, as the claim words it, fails: a name of 300 characters names no
    file at all, yet [find_browser] does not raise the not-found error for
    it; the error of the check comes out instead. *)
Lemma find_browser_explicit_check_raises :
  Examples.long_name <> ""
  /\ pathlib_fs.is_file Examples.failing_world
       (pathlib.of_str Examples.long_name)
     = Raised (OSError "[Errno 36] File name too long")
  /\ find_browser Examples.failing_world (Some Examples.long_name)
     = Raised (OSError "[Errno 36] File name too long")
  /\ forall msg : string,
       find_browser Examples.failing_world (Some Examples.long_name)
       <> Raised (FileNotFoundError msg).
Proof.
  assert (H : find_browser Examples.failing_world (Some Examples.long_name)
              = Raised (OSError "[Errno 36] File name too long"))
    by (vm_compute; reflexivity).
  split; [discriminate|]. split; [vm_compute; reflexivity|].
  split; [exact H|]. intros msg. rewrite H. discriminate.
Qed.

(** C9: the empty string as explicit path is treated as no path at all;
    the "not found at provided path" error cannot come out of it. *)
Theorem find_browser_empty_explicit (w : World) :
  find_browser w (Some "") = find_browser w None
  /\ forall shown : string,
       find_browser w (Some "")
       <> Raised (FileNotFoundError
                    ("Browser binary not found at provided path: " ++ shown)).
Proof.
  split; [reflexivity|].
  intros shown. unfold find_browser. cbn [PyStr.truthy String.eqb negb].
  destruct (search_candidates w candidates); discriminate.
Qed.

(** C5: without an explicit path the five names are tried in their fixed
    order, the first one the search path resolves is returned, and when
    none resolves the error tells the caller to use [--browser]. *)
Theorem find_browser_search (w : World) :
  candidates
  = ["google-chrome"; "chromium-browser"; "chromium"; "chrome"; "msedge"]
  /\ (forall (before after : list string) (c r : string),
        candidates = (before ++ c :: after)%list ->
        Forall (fun c' => resolves w c' = None) before ->
        resolves w c = Some r ->
        find_browser w None = Returned r)
  /\ (Forall (fun c => resolves w c = None) candidates ->
      find_browser w None = Raised (FileNotFoundError not_found_message))
  /\ PyStr.contains "Use --browser to point to an existing binary"
       not_found_message = true.
Proof.
  split; [reflexivity|]. split; [|split].
  - intros before after c r Hsplit Hbefore Hc.
    unfold find_browser.
    now rewrite (search_first w candidates before after c r Hsplit Hbefore Hc).
  - intros Hnone. unfold find_browser.
    now rewrite (search_none w candidates Hnone).
  - reflexivity.
Qed.

Lemma find_browser_search_witness :
  candidates = (["google-chrome"; "chromium-browser"] ++ "chromium" :: ["chrome"; "msedge"])%list
  /\ Forall (fun c' => resolves Examples.failing_world c' = None)
       ["google-chrome"; "chromium-browser"]
  /\ resolves Examples.failing_world "chromium" = Some "/usr/bin/chromium"
  /\ find_browser Examples.failing_world None = Returned "/usr/bin/chromium".
Proof.
  assert (H : Forall (fun c' => resolves Examples.failing_world c' = None)
                ["google-chrome"; "chromium-browser"])
    by (repeat constructor).
  split; [reflexivity|]. split; [exact H|]. split; [reflexivity|].
  exact (proj1 (proj2 (find_browser_search Examples.failing_world))
           ["google-chrome"; "chromium-browser"] ["chrome"; "msedge"]
           "chromium" "/usr/bin/chromium" eq_refl H eq_refl).
Defined.

(** ** Percent-encoding *)

Section Quote.
Import urllib.

Lemma quote_byte_chars (c : ascii) : string_forall url_char (quote_byte c) = true.
Proof. destruct c as [[] [] [] [] [] [] [] []]; reflexivity. Qed.

Lemma string_forall_append (f : ascii -> bool) (a b : string) :
  string_forall f (a ++ b) = string_forall f a && string_forall f b.
Proof.
  induction a as [|c a IH]; simpl; [reflexivity|].
  now rewrite IH, andb_assoc.
Qed.

Lemma quote_chars (s : string) :
  string_forall url_char (quote_from_bytes s) = true.
Proof.
  induction s as [|c s IH]; simpl; [reflexivity|].
  now rewrite string_forall_append, quote_byte_chars, IH.
Qed.

Lemma unquote_quote_byte (c : ascii) (rest : string) :
  unquote (quote_byte c ++ rest) = String c (unquote rest).
Proof.
  destruct c as [[] [] [] [] [] [] [] []];
    try reflexivity;
    (destruct rest as [|h [|l rest']]; reflexivity).
Qed.

(** Decoding the quoted name gives the name back. *)
Lemma unquote_quote (s : string) : unquote (quote_from_bytes s) = s.
Proof.
  induction s as [|c s IH]; simpl; [reflexivity|].
  now rewrite unquote_quote_byte, IH.
Qed.

Lemma quote_valid (s : string) :
  valid_utf8 s = true -> quote s = Returned (quote_from_bytes s).
Proof. unfold quote. now intros ->. Qed.

Lemma quote_invalid (s : string) :
  valid_utf8 s = false -> quote s = Raised (UnicodeEncodeError s).
Proof. unfold quote. now intros ->. Qed.

End Quote.

(** ** export_to_pdf *)

Section ExportToPdf.
Import PyStr.

Variable w : World.
Variables html_path output_pdf : pathlib.Path.
Variable wait_ms : Z.
Variable browser : string.

(** One call, step by step: the bind, the start of the thread, the quoting
    of the file name, then the guarded block. *)
Lemma export_to_pdf_steps (t0 : trace) :
  export_to_pdf w html_path output_pdf wait_ms browser t0 =
    match w_bind_error w with
    | Some e => (Raised e, t0)
    | None =>
        match w_thread_error w with
        | Some e =>
            (Raised e,
             (t0 ++ [ ServerBind (pathlib.str (pathlib.parent html_path))
                        "127.0.0.1" (w_ephemeral_port w) ])%list)
        | None =>
            if urllib.valid_utf8 (pathlib.name html_path) then
              (match w_run w (export_command w html_path output_pdf wait_ms
                                browser) with
               | RunRaised e => Raised e
               | Exited rc out err =>
                   if (rc =? 0)%Z then Returned tt
                   else Raised (RuntimeError
                                  (failure_message
                                     (export_command w html_path output_pdf
                                        wait_ms browser)
                                     (mkCompleted rc out err)))
               end,
               (t0 ++ export_events w html_path output_pdf wait_ms browser)%list)
            else
              (Raised (UnicodeEncodeError (pathlib.name html_path)),
               (t0 ++ [ ServerBind (pathlib.str (pathlib.parent html_path))
                          "127.0.0.1" (w_ephemeral_port w);
                        ThreadStart (server_thread w html_path) ])%list)
        end
    end.
Proof.
  unfold export_to_pdf, start_server, ThreadingHTTPServer, Thread_start,
    try_finally, subprocess_run, bind, emit, ret, raise, lift, urllib.quote,
    export_events.
  cbn [fst snd Z.eqb].
  destruct (w_bind_error w) as [e|]; [reflexivity|].
  destruct (w_thread_error w) as [e|]; [reflexivity|].
  destruct (urllib.valid_utf8 (pathlib.name html_path));
    [|rewrite <- app_assoc; reflexivity].
  change (build_print_command browser _ output_pdf wait_ms)
    with (export_command w html_path output_pdf wait_ms browser).
  destruct (w_run w (export_command w html_path output_pdf wait_ms browser))
    as [rc out err|e]; cbn [andb].
  - cbn [cp_returncode]. destruct (rc =? 0)%Z; cbn [negb];
      repeat rewrite <- app_assoc; reflexivity.
  - repeat rewrite <- app_assoc; reflexivity.
Qed.

(** The call once the server is up and the file name is quoted: what it
    ends with and everything it did. *)
Lemma export_to_pdf_run (t0 : trace) :
  server_starts w ->
  urllib.valid_utf8 (pathlib.name html_path) = true ->
  export_to_pdf w html_path output_pdf wait_ms browser t0 =
    (match w_run w (export_command w html_path output_pdf wait_ms browser) with
     | RunRaised e => Raised e
     | Exited rc out err =>
         if (rc =? 0)%Z then Returned tt
         else Raised (RuntimeError
                        (failure_message
                           (export_command w html_path output_pdf wait_ms browser)
                           (mkCompleted rc out err)))
     end,
     (t0 ++ export_events w html_path output_pdf wait_ms browser)%list).
Proof.
  intros [Hbind Hthread] Hname.
  now rewrite export_to_pdf_steps, Hbind, Hthread, Hname.
Qed.

End ExportToPdf.

(** C1: the claim asks for shutdown and join on every exit path.  The code
    fails it when the name of the HTML file is not valid UTF-8 (here a
    Latin-1 [caf\xe9.htm]): the listener is bound and the thread started,
    then [quote], called before the [try], raises, and the call ends
    without shutdown and without join. *)
Theorem export_quote_error_skips_shutdown :
  urllib.valid_utf8 (pathlib.name Examples.latin1_htm) = false
  /\ export_to_pdf Examples.working_world Examples.latin1_htm
       Examples.report_pdf 10000 "/usr/bin/chromium" []
     = (Raised (UnicodeEncodeError Examples.latin1_name),
        [ ServerBind "/home/user" "127.0.0.1" 40123;
          ThreadStart (server_thread Examples.working_world
                         Examples.latin1_htm) ])
  /\ (forall s : HTTPServer,
        ~ In (ServerShutdown s)
            (trace_of (export_to_pdf Examples.working_world
                         Examples.latin1_htm Examples.report_pdf 10000
                         "/usr/bin/chromium") []))
  /\ (forall (t : Thread) (timeout : Z),
        ~ In (ThreadJoin t timeout)
            (trace_of (export_to_pdf Examples.working_world
                         Examples.latin1_htm Examples.report_pdf 10000
                         "/usr/bin/chromium") [])).
Proof.
  assert (Hrun : export_to_pdf Examples.working_world Examples.latin1_htm
                   Examples.report_pdf 10000 "/usr/bin/chromium" []
                 = (Raised (UnicodeEncodeError Examples.latin1_name),
                    [ ServerBind "/home/user" "127.0.0.1" 40123;
                      ThreadStart (server_thread Examples.working_world
                                     Examples.latin1_htm) ]))
    by (rewrite export_to_pdf_steps; reflexivity).
  split; [reflexivity|]. split; [exact Hrun|].
  unfold trace_of. rewrite Hrun. cbn [snd].
  split.
  - intros s [H|[H|[]]]; discriminate.
  - intros t timeout [H|[H|[]]]; discriminate.
Qed.

(** C6: a non-zero exit status makes the call raise [RuntimeError] with a
    message holding the command line joined by spaces and the captured
    standard output and error; [subprocess.run] itself, called with
    [check=False], returns the completed process instead of raising.  (A
    subprocess result is there once the server is up and the file name is
    quoted.) *)
Theorem export_nonzero_exit_message (w : World)
    (html_path output_pdf : pathlib.Path) (wait_ms : Z) (browser : string)
    (t0 : trace) (rc : Z) (out err : string) :
  server_starts w ->
  urllib.valid_utf8 (pathlib.name html_path) = true ->
  w_run w (export_command w html_path output_pdf wait_ms browser)
  = Exited rc out err ->
  rc <> 0%Z ->
  let command := export_command w html_path output_pdf wait_ms browser in
  let message :=
    "Browser failed to generate PDF." ++ PyStr.nl
    ++ "Command: " ++ PyStr.join " " command ++ PyStr.nl
    ++ "stdout: " ++ out ++ PyStr.nl
    ++ "stderr: " ++ err in
  result_of (export_to_pdf w html_path output_pdf wait_ms browser) t0
  = Raised (RuntimeError message)
  /\ result_of (subprocess_run w command false) t0
     = Returned (mkCompleted rc out err)
  /\ PyStr.contains (PyStr.join " " command) message = true
  /\ PyStr.contains out message = true
  /\ PyStr.contains err message = true.
Proof.
  intros Hstart Hname Hrun Hrc. cbv zeta.
  unfold result_of. rewrite (export_to_pdf_run _ _ _ _ _ _ Hstart Hname).
  cbn [fst]. rewrite Hrun.
  apply Z.eqb_neq in Hrc. rewrite Hrc.
  split; [reflexivity|]. split.
  - unfold subprocess_run, bind, emit. now rewrite Hrun.
  - repeat split.
    + apply (contains_append _ ("Browser failed to generate PDF." ++ PyStr.nl
                                ++ "Command: ")).
    + apply contains_within with
        (before := "Browser failed to generate PDF." ++ PyStr.nl
                   ++ "Command: "
                   ++ PyStr.join " "
                        (export_command w html_path output_pdf wait_ms browser)
                   ++ PyStr.nl ++ "stdout: ")
        (after := PyStr.nl ++ "stderr: " ++ err).
      now rewrite !append_assoc.
    + apply contains_within with
        (before := "Browser failed to generate PDF." ++ PyStr.nl
                   ++ "Command: "
                   ++ PyStr.join " "
                        (export_command w html_path output_pdf wait_ms browser)
                   ++ PyStr.nl ++ "stdout: " ++ out ++ PyStr.nl ++ "stderr: ")
        (after := "").
      now rewrite !append_assoc, append_empty_r.
Qed.

Lemma export_nonzero_exit_message_witness :
  server_starts Examples.failing_world
  /\ urllib.valid_utf8 (pathlib.name Examples.report_htm) = true
  /\ w_run Examples.failing_world
       (export_command Examples.failing_world Examples.report_htm
          Examples.report_pdf 5000 "/usr/bin/chromium")
     = Exited 1 "" "boom"
  /\ 1%Z <> 0%Z
  /\ result_of
       (export_to_pdf Examples.failing_world Examples.report_htm
          Examples.report_pdf 5000 "/usr/bin/chromium") []
     = Raised (RuntimeError
         ("Browser failed to generate PDF." ++ PyStr.nl
          ++ "Command: /usr/bin/chromium --headless=new --disable-gpu --no-sandbox --virtual-time-budget=5000 --print-to-pdf=/home/user/report.pdf http://127.0.0.1:40123/report.htm"
          ++ PyStr.nl ++ "stdout: " ++ PyStr.nl ++ "stderr: boom")).
Proof.
  assert (Hstart : server_starts Examples.failing_world) by (split; reflexivity).
  assert (Hrc : 1%Z <> 0%Z) by discriminate.
  split; [exact Hstart|]. split; [reflexivity|]. split; [reflexivity|].
  split; [exact Hrc|].
  exact (proj1 (export_nonzero_exit_message Examples.failing_world
                  Examples.report_htm Examples.report_pdf 5000
                  "/usr/bin/chromium" [] 1 "" "boom" Hstart eq_refl eq_refl
                  Hrc)).
Defined.

(** C8: for the HTML file [name] in the directory [root], [directory], the
    server is bound on 127.0.0.1 at the port the system picked and rooted
    at that directory, and the URL handed to the browser as last argument
    is that host and port followed by the quoted [name] alone: nothing of
    the directory enters it.  The quoted name holds only URL-safe
    characters and decodes back to [name]. *)
Theorem export_url_names_html_file (w : World)
    (root : string) (directory : list string) (name : string)
    (output_pdf : pathlib.Path) (wait_ms : Z) (browser : string) (t0 : trace) :
  server_starts w ->
  urllib.valid_utf8 name = true ->
  let html_path := pathlib.mkPath root (directory ++ [name])%list in
  let url :=
    "http://127.0.0.1:" ++ PyStr.of_int (w_ephemeral_port w) ++ "/"
    ++ urllib.quote_from_bytes name in
  let done :=
    trace_of (export_to_pdf w html_path output_pdf wait_ms browser) t0 in
  In (ServerBind (pathlib.str (pathlib.mkPath root directory)) "127.0.0.1"
        (w_ephemeral_port w)) done
  /\ In (SubprocessRun (build_print_command browser url output_pdf wait_ms)) done
  /\ last (build_print_command browser url output_pdf wait_ms) "" = url
  /\ urllib.quote name = Returned (urllib.quote_from_bytes name)
  /\ string_forall url_char (urllib.quote_from_bytes name) = true
  /\ unquote (urllib.quote_from_bytes name) = name.
Proof.
  intros Hstart Hname. cbv zeta.
  assert (Hn : pathlib.name (pathlib.mkPath root (directory ++ [name])%list)
               = name)
    by (unfold pathlib.name; cbn [pathlib.parts]; apply last_last).
  assert (Hp : pathlib.parent (pathlib.mkPath root (directory ++ [name])%list)
               = pathlib.mkPath root directory)
    by (unfold pathlib.parent; cbn [pathlib.root pathlib.parts];
        now rewrite removelast_last).
  unfold trace_of.
  rewrite export_to_pdf_run by (rewrite ?Hn; assumption).
  cbn [snd]. unfold export_events, export_command, bound_server, page_url.
  cbn [server_address]. rewrite Hn, Hp.
  split; [|split; [|split; [|split; [|split]]]].
  - apply in_or_app. right. left. reflexivity.
  - apply in_or_app. right. right. right. left. reflexivity.
  - reflexivity.
  - now apply quote_valid.
  - apply quote_chars.
  - apply unquote_quote.
Qed.

Lemma export_url_names_html_file_witness :
  server_starts Examples.working_world
  /\ urllib.valid_utf8 "my report.htm" = true
  /\ In (ServerBind "/home/user" "127.0.0.1" 40123)
       (trace_of (export_to_pdf Examples.working_world
                    (pathlib.of_str "/home/user/my report.htm")
                    Examples.report_pdf 5000 "/usr/bin/chromium") [])
  /\ In (SubprocessRun
          (build_print_command "/usr/bin/chromium"
             "http://127.0.0.1:40123/my%20report.htm" Examples.report_pdf 5000))
       (trace_of (export_to_pdf Examples.working_world
                    (pathlib.of_str "/home/user/my report.htm")
                    Examples.report_pdf 5000 "/usr/bin/chromium") []).
Proof.
  assert (Hstart : server_starts Examples.working_world)
    by (split; reflexivity).
  pose proof (export_url_names_html_file Examples.working_world "/"
                ["home"; "user"] "my report.htm" Examples.report_pdf 5000
                "/usr/bin/chromium" [] Hstart eq_refl) as H.
  split; [exact Hstart|]. split; [reflexivity|].
  split; [exact (proj1 H)|exact (proj1 (proj2 H))].
Defined.

(** C10, as the code has it: the call raises exactly when the listener
    cannot be bound, the thread cannot be started, the file name cannot be
    encoded for the URL, [subprocess.run] itself raises (the browser cannot
    be started, its output cannot be decoded), or the browser exits with a
    non-zero status.  When none of the calls raises, exit status 0 is
    success; no check of the output path is part of it. *)
Theorem export_raises_iff (w : World)
    (html_path output_pdf : pathlib.Path) (wait_ms : Z) (browser : string)
    (t0 : trace) :
  ((exists e,
      result_of (export_to_pdf w html_path output_pdf wait_ms browser) t0
      = Raised e)
   <-> w_bind_error w <> None
       \/ w_thread_error w <> None
       \/ urllib.valid_utf8 (pathlib.name html_path) = false
       \/ (exists e,
             w_run w (export_command w html_path output_pdf wait_ms browser)
             = RunRaised e)
       \/ (exists rc out err,
             w_run w (export_command w html_path output_pdf wait_ms browser)
             = Exited rc out err /\ rc <> 0%Z))
  /\ (server_starts w ->
      urllib.valid_utf8 (pathlib.name html_path) = true ->
      forall out err,
        w_run w (export_command w html_path output_pdf wait_ms browser)
        = Exited 0 out err ->
        result_of (export_to_pdf w html_path output_pdf wait_ms browser) t0
        = Returned tt).
Proof.
  unfold result_of, server_starts. rewrite export_to_pdf_steps.
  destruct (w_bind_error w) as [eb|].
  { split.
    - split; [intros _; left; discriminate|intros _; now exists eb].
    - intros [H _]. discriminate. }
  destruct (w_thread_error w) as [et|].
  { split.
    - split; [intros _; right; left; discriminate|intros _; now exists et].
    - intros [_ H]. discriminate. }
  destruct (urllib.valid_utf8 (pathlib.name html_path)).
  2:{ split.
      - split; [intros _; right; right; left; reflexivity|].
        intros _. eexists. reflexivity.
      - intros _ H. discriminate. }
  cbn [fst]. split.
  - destruct (w_run w (export_command w html_path output_pdf wait_ms browser))
      as [rc out err|e].
    + destruct (rc =? 0)%Z eqn:Hrc.
      * apply Z.eqb_eq in Hrc; subst rc. split.
        -- intros [e He]. discriminate.
        -- intros [H|[H|[H|[[e He]|(rc & out' & err' & H & Hrc)]]]];
             try congruence; discriminate.
      * apply Z.eqb_neq in Hrc. split.
        -- intros _. right. right. right. right. now exists rc, out, err.
        -- intros _. eexists. reflexivity.
    + split.
      * intros _. right. right. right. left. now exists e.
      * intros _. now exists e.
  - intros _ _ out err ->. reflexivity.
Qed.

Lemma export_raises_iff_witness :
  server_starts Examples.working_world
  /\ urllib.valid_utf8 (pathlib.name Examples.report_htm) = true
  /\ w_run Examples.working_world
       (export_command Examples.working_world Examples.report_htm
          Examples.report_pdf 10000 "/usr/bin/chromium")
     = Exited 0 "" ""
  /\ w_exists Examples.working_world "/home/user/report.pdf" = Returned false
  /\ result_of
       (export_to_pdf Examples.working_world Examples.report_htm
          Examples.report_pdf 10000 "/usr/bin/chromium") []
     = Returned tt.
Proof.
  assert (Hstart : server_starts Examples.working_world)
    by (split; reflexivity).
  split; [exact Hstart|]. split; [reflexivity|]. split; [reflexivity|].
  split; [reflexivity|].
  exact (proj2 (export_raises_iff Examples.working_world
                  Examples.report_htm Examples.report_pdf 10000
                  "/usr/bin/chromium" [])
           Hstart eq_refl "" "" eq_refl).
Defined.

(** C10, as the claim words it, fails: when the browser file cannot be
    executed the call raises although no subprocess exited with any
    status. *)
Lemma export_raises_without_exit_status :
  result_of
    (export_to_pdf Examples.unlaunchable_world Examples.report_htm
       Examples.report_pdf 10000 "/usr/bin/chromium") []
  = Raised (OSError "Permission denied")
  /\ ~ (exists rc out err,
          w_run Examples.unlaunchable_world
            (export_command Examples.unlaunchable_world Examples.report_htm
               Examples.report_pdf 10000 "/usr/bin/chromium")
          = Exited rc out err /\ rc <> 0%Z).
Proof.
  split; [reflexivity|].
  intros (rc & out & err & H & _). discriminate.
Qed.

(** ** build_print_command *)

Lemma to_int_of_int (n : Z) : PyStr.to_int (PyStr.of_int n) = Some n.
Proof.
  unfold PyStr.to_int, PyStr.of_int.
  rewrite NilZero.isi.
  - cbn [option_map]. now rewrite DecimalZ.of_to.
  - destruct n as [|p|p]; cbn [Z.to_int]; try discriminate.
    intros [= H]. now apply DecimalPos.Unsigned.to_uint_nonnil in H.
  - destruct n as [|p|p]; cbn [Z.to_int]; try discriminate.
    intros [= H]. now apply DecimalPos.Unsigned.to_uint_nonnil in H.
Qed.

(** C2: the command is the browser, the three fixed flags, the virtual
    time budget whose value reads back as the wait parameter, the
    print-to-pdf flag whose value is the output path as written by [str],
    and the URL last; equal arguments give equal commands. *)
Theorem build_print_command_structure (browser url : string)
    (output_pdf : pathlib.Path) (wait_ms : Z) :
  build_print_command browser url output_pdf wait_ms
  = [ browser; "--headless=new"; "--disable-gpu"; "--no-sandbox";
      "--virtual-time-budget=" ++ PyStr.of_int wait_ms;
      "--print-to-pdf=" ++ pathlib.str output_pdf;
      url ]
  /\ PyStr.to_int
       (PyStr.drop (length "--virtual-time-budget=")
          (nth 4 (build_print_command browser url output_pdf wait_ms) ""))
     = Some wait_ms
  /\ PyStr.drop (length "--print-to-pdf=")
       (nth 5 (build_print_command browser url output_pdf wait_ms) "")
     = pathlib.str output_pdf
  /\ last (build_print_command browser url output_pdf wait_ms) "" = url
  /\ (forall browser' url' output_pdf' wait_ms',
        browser' = browser -> url' = url -> output_pdf' = output_pdf ->
        wait_ms' = wait_ms ->
        build_print_command browser' url' output_pdf' wait_ms'
        = build_print_command browser url output_pdf wait_ms).
Proof.
  split; [reflexivity|]. split; [|split; [|split]].
  - cbn. apply to_int_of_int.
  - reflexivity.
  - reflexivity.
  - intros ? ? ? ? -> -> -> ->. reflexivity.
Qed.

Lemma build_print_command_structure_witness :
  build_print_command "/usr/bin/chromium" "http://127.0.0.1:40123/report.htm"
    Examples.report_pdf 5000
  = [ "/usr/bin/chromium"; "--headless=new"; "--disable-gpu"; "--no-sandbox";
      "--virtual-time-budget=5000";
      "--print-to-pdf=/home/user/report.pdf";
      "http://127.0.0.1:40123/report.htm" ].
Proof.
  exact (eq_trans
           (proj2 (proj2 (proj2 (proj2
              (build_print_command_structure "/usr/bin/chromium"
                 "http://127.0.0.1:40123/report.htm" Examples.report_pdf 5000))))
              "/usr/bin/chromium" "http://127.0.0.1:40123/report.htm"
              (pathlib.of_str "/home/user/report.pdf") (2500 + 2500)%Z
              eq_refl eq_refl eq_refl eq_refl)
           eq_refl).
Defined.

(** ** The default output path *)

Section WithSuffix.
Import PyStr pathlib.

Lemma take_drop (n : nat) (s : string) : take n s ++ drop n s = s.
Proof.
  revert s. induction n as [|n IH]; intros [|c s]; simpl; try reflexivity.
  now rewrite IH.
Qed.

Lemma length_drop (n : nat) (s : string) :
  length (drop n s) = length s - n.
Proof.
  revert s. induction n as [|n IH]; intros [|c s]; simpl; try reflexivity.
  apply IH.
Qed.

Lemma take_append (a b : string) : take (length a) (a ++ b) = a.
Proof. induction a as [|c a IH]; simpl; [now destruct b|now rewrite IH]. Qed.

Lemma rfind_bounds (c : ascii) (s : string) :
  (-1 <= rfind c s < Z.of_nat (length s))%Z.
Proof.
  induction s as [|a s IH]; simpl length; cbn [rfind]; [lia|].
  destruct (0 <=? rfind c s)%Z eqn:E.
  - apply Z.leb_le in E. lia.
  - destruct (Ascii.eqb a c); lia.
Qed.

(** In [base.ext], with no dot inside [ext], the last dot is the one
    written between the two. *)
Lemma rfind_dotted (base ext : string) :
  rfind "."%char ext = (-1)%Z ->
  rfind "."%char (base ++ "." ++ ext) = Z.of_nat (length base).
Proof.
  intros Hext. induction base as [|a base IH].
  - cbn. now rewrite Hext.
  - cbn [append rfind] in *. rewrite IH.
    destruct (0 <=? Z.of_nat (length base))%Z eqn:E.
    + simpl length. lia.
    + apply Z.leb_gt in E. lia.
Qed.

Lemma name_stem_suffix (p : Path) : name p = stem p ++ suffix p.
Proof.
  unfold stem, suffix.
  destruct ((0 <? rfind "."%char (name p))
            && (rfind "."%char (name p) <? Z.of_nat (length (name p)) - 1))%Z.
  - now rewrite take_drop.
  - now rewrite append_empty_r.
Qed.

Lemma stem_dotted (p : Path) (base ext : string) :
  name p = base ++ "." ++ ext ->
  base <> "" -> ext <> "" -> rfind "."%char ext = (-1)%Z ->
  stem p = base /\ suffix p = "." ++ ext.
Proof.
  intros Hname Hbase Hext Hdot.
  pose proof (name_stem_suffix p) as Hsplit.
  unfold stem in *. unfold suffix in Hsplit |- *.
  rewrite Hname in *. rewrite (rfind_dotted base ext Hdot) in *.
  assert (Hcond : ((0 <? Z.of_nat (length base))
                   && (Z.of_nat (length base)
                       <? Z.of_nat (length (base ++ "." ++ ext)) - 1))%Z = true).
  { apply andb_true_iff. split; apply Z.ltb_lt.
    - destruct base; [contradiction|simpl length; lia].
    - rewrite length_append. destruct ext; [contradiction|simpl length; lia]. }
  rewrite Hcond in *. rewrite Nat2Z.id in *.
  rewrite take_append in *. split; [reflexivity|].
  clear -Hsplit. induction base as [|a base IH]; simpl in *.
  - symmetry. exact Hsplit.
  - apply IH. congruence.
Qed.

(** [with_suffix(".pdf")] keeps the directory and writes the stem followed
    by [.pdf] as the name. *)
Lemma with_suffix_pdf (p : Path) :
  name p <> "" ->
  pathlib_fs.with_suffix p ".pdf"
  = Returned (mkPath (root p) (removelast (parts p) ++ [(stem p ++ ".pdf")%string])%list).
Proof.
  intros Hname. unfold pathlib_fs.with_suffix.
  change (contains "/" ".pdf") with false.
  change ((truthy ".pdf" && negb (prefix "." ".pdf")) || (".pdf" =? ""%string))
    with false.
  cbn match.
  apply String.eqb_neq in Hname. rewrite Hname.
  unfold stem, suffix.
  pose proof (rfind_bounds "."%char (name p)) as Hb.
  destruct ((0 <? rfind "."%char (name p))
            && (rfind "."%char (name p) <? Z.of_nat (length (name p)) - 1))%Z
    eqn:Hcond.
  - apply andb_true_iff in Hcond as [H0 H1].
    apply Z.ltb_lt in H0, H1.
    assert (Hlen : length (drop (Z.to_nat (rfind "."%char (name p))) (name p))
                   = length (name p) - Z.to_nat (rfind "."%char (name p)))
      by apply length_drop.
    destruct (drop (Z.to_nat (rfind "."%char (name p))) (name p) =? "") eqn:E.
    + apply String.eqb_eq in E. rewrite E in Hlen. simpl in Hlen. lia.
    + rewrite Hlen.
      replace (length (name p)
               - (length (name p) - Z.to_nat (rfind "."%char (name p))))
        with (Z.to_nat (rfind "."%char (name p))) by lia.
      reflexivity.
  - reflexivity.
Qed.

End WithSuffix.

(** C7: with no output argument, [main] exports to the resolved HTML path
    with the extension of its name replaced by [.pdf], in the same
    directory; [report.htm] gives [report.pdf].  (A resolved path that is a
    regular file has a name; the hypothesis says so because the file
    system is a parameter here.) *)
Theorem main_default_output (w : World) (args : Namespace) (t0 : trace) :
  let html_path := w_resolve w (w_expanduser w (html_file args)) in
  output_pdf args = None ->
  pathlib_fs.is_file w html_path = Returned true ->
  pathlib.name html_path <> "" ->
  main w args t0
  = bind (lift (find_browser w (browser args)))
      (fun browser_path =>
         export_to_pdf w html_path (default_output html_path) (wait_ms args)
           browser_path) t0
  /\ pathlib.name html_path = pathlib.stem html_path ++ pathlib.suffix html_path
  /\ pathlib.parent (default_output html_path) = pathlib.parent html_path
  /\ pathlib.name (default_output html_path) = pathlib.stem html_path ++ ".pdf"
  /\ (forall base ext : string,
        pathlib.name html_path = base ++ "." ++ ext ->
        base <> "" -> ext <> "" -> PyStr.rfind "."%char ext = (-1)%Z ->
        pathlib.name (default_output html_path) = base ++ ".pdf")
  /\ (pathlib.name html_path = "report.htm" ->
      pathlib.name (default_output html_path) = "report.pdf").
Proof.
  intros html_path Hnone Hfile Hname.
  assert (Hdefault : pathlib.name (default_output html_path)
                     = pathlib.stem html_path ++ ".pdf").
  { unfold default_output, pathlib.name. cbn [pathlib.parts].
    apply last_last. }
  split; [|split; [|split; [|split; [|split]]]].
  - unfold main. fold html_path. unfold bind at 1, lift at 1.
    rewrite Hfile, Hnone. cbn [negb].
    rewrite (with_suffix_pdf html_path Hname). reflexivity.
  - apply name_stem_suffix.
  - unfold default_output, pathlib.parent. cbn [pathlib.root pathlib.parts].
    now rewrite removelast_last.
  - exact Hdefault.
  - intros base ext Hdotted Hbase Hext Hdot.
    rewrite Hdefault.
    now destruct (stem_dotted html_path base ext Hdotted Hbase Hext Hdot)
      as [-> _].
  - intros Hreport. rewrite Hdefault.
    now destruct (stem_dotted html_path "report" "htm" Hreport)
      as [-> _].
Qed.

Lemma main_default_output_witness :
  output_pdf Examples.report_args = None
  /\ pathlib_fs.is_file Examples.failing_world Examples.report_htm
     = Returned true
  /\ pathlib.name Examples.report_htm <> ""
  /\ w_resolve Examples.failing_world
       (w_expanduser Examples.failing_world (html_file Examples.report_args))
     = Examples.report_htm
  /\ default_output Examples.report_htm = Examples.report_pdf
  /\ main Examples.failing_world Examples.report_args []
     = export_to_pdf Examples.failing_world Examples.report_htm
         Examples.report_pdf 10000 "/usr/bin/chromium" [].
Proof.
  assert (Hname : pathlib.name Examples.report_htm <> "") by discriminate.
  split; [reflexivity|]. split; [reflexivity|]. split; [exact Hname|].
  split; [reflexivity|]. split; [reflexivity|].
  exact (proj1 (main_default_output Examples.failing_world
                  Examples.report_args [] eq_refl eq_refl Hname)).
Defined.

(** * Further properties of the script *)

(** ** Splitting, joining and the parse/print round trip of paths *)

Section SplitJoin.
Import PyStr.

Variable sep : ascii.

Lemma split_single (x : string) :
  string_forall (differs_from sep) x = true -> split sep x = [x].
Proof.
  induction x as [|c x IH]; simpl; [reflexivity|].
  intros H. apply andb_true_iff in H as [Hc Hx].
  unfold differs_from in Hc. apply negb_true_iff in Hc. rewrite Hc.
  now rewrite (IH Hx).
Qed.

Lemma split_append_sep (x rest : string) :
  string_forall (differs_from sep) x = true ->
  split sep (x ++ String sep rest) = x :: split sep rest.
Proof.
  induction x as [|c x IH]; simpl.
  - intros _. now rewrite Ascii.eqb_refl.
  - intros H. apply andb_true_iff in H as [Hc Hx].
    unfold differs_from in Hc. apply negb_true_iff in Hc. rewrite Hc.
    now rewrite (IH Hx).
Qed.

(** Joining components that hold no separator and splitting again gives
    the components back. *)
Lemma split_join (l : list string) :
  l <> [] ->
  forallb (string_forall (differs_from sep)) l = true ->
  split sep (join (String sep "") l) = l.
Proof.
  induction l as [|x l IH]; [congruence|]. intros _ H.
  simpl in H. apply andb_true_iff in H as [Hx Hl].
  destruct l as [|y l].
  - simpl. now apply split_single.
  - rewrite join_cons. cbn [append].
    rewrite (split_append_sep _ _ Hx), IH; [reflexivity|discriminate|exact Hl].
Qed.

Lemma split_no_sep (s : string) :
  forallb (string_forall (differs_from sep)) (split sep s) = true.
Proof.
  induction s as [|c s IH]; simpl; [reflexivity|].
  destruct (Ascii.eqb c sep) eqn:E; [exact IH|].
  destruct (split sep s) as [|h t]; simpl in *.
  - unfold differs_from. now rewrite E.
  - unfold differs_from at 1. now rewrite E.
Qed.

Lemma split_trailing_sep (s : string) :
  split sep (s ++ String sep "") = (split sep s ++ [""])%list.
Proof.
  induction s as [|c s IH]; simpl.
  - now rewrite Ascii.eqb_refl.
  - destruct (Ascii.eqb c sep); rewrite IH; [reflexivity|].
    destruct (split sep s) as [|h t] eqn:Hs; [now apply split_not_nil in Hs|].
    reflexivity.
Qed.

Lemma drop_leading_append (p s : string) :
  drop (leading sep p) (p ++ s) = drop (leading sep p) p ++ s.
Proof.
  induction p as [|a p IH]; simpl.
  - now destruct s.
  - destruct (Ascii.eqb a sep); [exact IH|reflexivity].
Qed.

Lemma leading_append (p s : string) :
  drop (leading sep p) p <> "" ->
  leading sep (p ++ s) = leading sep p.
Proof.
  induction p as [|a p IH]; simpl; [congruence|].
  destruct (Ascii.eqb a sep); [|reflexivity].
  intros H. now rewrite IH.
Qed.

End SplitJoin.

Section PathRoundTrip.
Import PyStr pathlib.

Lemma forallb_filter_both {A} (f g : A -> bool) (l : list A) :
  forallb g l = true ->
  forallb (fun x => f x && g x) (filter f l) = true.
Proof.
  induction l as [|x l IH]; simpl; [reflexivity|].
  intros H. apply andb_true_iff in H as [Hx Hl].
  destruct (f x) eqn:Hf; simpl; [|now apply IH].
  now rewrite Hf, Hx, IH.
Qed.

(** Parsing a string always gives a well-formed path. *)
Lemma of_str_valid (s : string) : valid_path (of_str s) = true.
Proof.
  unfold valid_path, of_str. cbn [root parts].
  apply andb_true_iff. split.
  - now destruct (leading "/"%char s) as [|[|[|n]]].
  - apply forallb_filter_both. apply split_no_sep.
Qed.

Lemma of_str_rooted (r : string) (c : ascii) (tl : string) :
  Ascii.eqb c "/" = false ->
  r = "" \/ r = "/" \/ r = "//" ->
  of_str (r ++ String c tl)
  = mkPath r (filter kept_component (split "/"%char (String c tl))).
Proof.
  intros Hc [-> | [-> | ->]]; unfold of_str; simpl; rewrite ?Hc; simpl;
    rewrite ?Hc; reflexivity.
Qed.

(** Writing a well-formed path and parsing it again gives the path back. *)
Lemma of_str_str (q : Path) : valid_path q = true -> of_str (str q) = q.
Proof.
  destruct q as [r ps]. unfold valid_path. cbn [root parts].
  intros H. apply andb_true_iff in H as [Hr Hps].
  assert (Hroot : r = "" \/ r = "/" \/ r = "//").
  { apply orb_true_iff in Hr as [Hr|Hr];
      [apply orb_true_iff in Hr as [Hr|Hr]|];
      apply String.eqb_eq in Hr; auto. }
  clear Hr.
  assert (Hkept : filter kept_component ps = ps).
  { apply filter_all. clear -Hps.
    induction ps as [|x ps IH]; simpl in *; [reflexivity|].
    apply andb_true_iff in Hps as [Hx Hps].
    apply andb_true_iff in Hx as [Hx _]. now rewrite Hx, IH. }
  assert (Hslash : forallb (string_forall (differs_from "/")) ps = true).
  { clear -Hps.
    induction ps as [|x ps IH]; simpl in *; [reflexivity|].
    apply andb_true_iff in Hps as [Hx Hps].
    apply andb_true_iff in Hx as [_ Hx].
    unfold not_slash in Hx. now rewrite Hx, IH. }
  destruct ps as [|x ps].
  - destruct Hroot as [-> | [-> | ->]]; reflexivity.
  - assert (Hx : exists c x', x = String c x' /\ Ascii.eqb c "/" = false).
    { simpl in Hps. apply andb_true_iff in Hps as [Hx _].
      apply andb_true_iff in Hx as [Hk Hs].
      destruct x as [|c x']; [discriminate|].
      exists c, x'. split; [reflexivity|].
      simpl in Hs. apply andb_true_iff in Hs as [Hc _].
      now apply negb_true_iff in Hc. }
    destruct Hx as (c & x' & -> & Hc).
    assert (Hjoin : exists tl, join "/" (String c x' :: ps) = String c tl).
    { destruct ps; [now exists x'|]. rewrite join_cons. now eexists. }
    destruct Hjoin as [tl Hjoin].
    pose proof (split_join "/"%char (String c x' :: ps)
                  ltac:(discriminate) Hslash) as Hsplit.
    change (String "/" "") with "/" in Hsplit.
    unfold str. cbn [root parts].
    rewrite Hjoin in *.
    assert (Hne : (r ++ String c tl =? "") = false)
      by (destruct Hroot as [-> | [-> | ->]]; reflexivity).
    rewrite Hne, (of_str_rooted r c tl Hc Hroot), Hsplit, Hkept.
    reflexivity.
Qed.

(** The string form of a parsed path is a fixed point of parsing and
    writing. *)
Lemma str_of_str_idempotent (p : string) :
  str (of_str (str (of_str p))) = str (of_str p).
Proof. now rewrite of_str_str by apply of_str_valid. Qed.

Lemma str_not_empty (q : Path) : str q <> "".
Proof.
  unfold str. destruct (root q ++ join "/" (parts q) =? "") eqn:E;
    [discriminate|now apply String.eqb_neq].
Qed.

Lemma of_str_dot_slash (p : string) :
  leading "/"%char p = 0 -> of_str ("./" ++ p) = of_str p.
Proof.
  intros H. unfold of_str. rewrite H. cbn.
  destruct (split "/"%char p) as [|h t] eqn:Hs; [now apply split_not_nil in Hs|].
  reflexivity.
Qed.

Lemma of_str_trailing_slash (p : string) :
  drop (leading "/"%char p) p <> "" -> of_str (p ++ "/") = of_str p.
Proof.
  intros H. unfold of_str.
  rewrite (leading_append "/"%char p "/" H), drop_leading_append.
  rewrite split_trailing_sep, filter_app. cbn [filter kept_component].
  cbn. now rewrite app_nil_r.
Qed.

End PathRoundTrip.

(** ** More on find_browser *)

Section FindBrowserMore.
Import PyStr pathlib.

Variable w : World.

Lemma resolves_which (c r : string) :
  resolves w c = Some r -> w_which w c = Some r /\ r <> "".
Proof.
  unfold resolves. destruct (w_which w c) as [x|]; [|discriminate].
  destruct (truthy x) eqn:E; [|discriminate].
  intros [= ->]. split; [reflexivity|now apply truthy_true].
Qed.

Lemma search_sound (names : list string) (r : string) :
  search_candidates w names = Some r ->
  exists before c after,
    names = (before ++ c :: after)%list
    /\ Forall (fun c' => resolves w c' = None) before
    /\ resolves w c = Some r.
Proof.
  induction names as [|c names IH]; simpl; [discriminate|].
  intros H.
  destruct (resolves w c) as [x|] eqn:Hc.
  - exists [], c, names. split; [reflexivity|]. split; [constructor|].
    unfold resolves in Hc |- *.
    destruct (w_which w c) as [y|]; [|discriminate].
    destruct (truthy y); [exact H|discriminate].
  - assert (Hrest : search_candidates w names = Some r).
    { unfold resolves in Hc. destruct (w_which w c) as [y|]; [|exact H].
      destruct (truthy y); [discriminate|exact H]. }
    destruct (IH Hrest) as (before & c' & after & -> & Hb & Hc').
    exists (c :: before), c', after.
    split; [reflexivity|]. split; [now constructor|exact Hc'].
Qed.

Lemma search_none_inv (names : list string) :
  search_candidates w names = None ->
  Forall (fun c => resolves w c = None) names.
Proof.
  induction names as [|c names IH]; simpl; [constructor|].
  intros H.
  assert (Hc : resolves w c = None /\ search_candidates w names = None).
  { unfold resolves. destruct (w_which w c) as [y|]; [|now split].
    destruct (truthy y); [discriminate|now split]. }
  constructor; [apply Hc|apply IH, Hc].
Qed.

End FindBrowserMore.

(** X1: [find_browser] never returns the empty string, and what it
    raises is [FileNotFoundError] or, with a non-empty explicit path only,
    the very error [is_file()] or [exists()] raised on that path. *)
Theorem find_browser_outcome (w : World) (explicit_path : option string) :
  (exists b, find_browser w explicit_path = Returned b /\ b <> "")
  \/ (exists msg,
        find_browser w explicit_path = Raised (FileNotFoundError msg))
  \/ (exists p e,
        explicit_path = Some p /\ p <> ""
        /\ (pathlib_fs.is_file w (pathlib.of_str p) = Raised e
            \/ pathlib_fs.exists_ w (pathlib.of_str p) = Raised e)
        /\ find_browser w explicit_path = Raised e).
Proof.
  destruct explicit_path as [p|].
  - destruct (PyStr.truthy p) eqn:Hp.
    + apply truthy_true in Hp. rewrite (find_browser_given w p Hp).
      destruct (pathlib_fs.is_file w (pathlib.of_str p)) as [[|]|e] eqn:Hf.
      * destruct (pathlib_fs.exists_ w (pathlib.of_str p)) as [[|]|e] eqn:He.
        -- left. eexists. split; [reflexivity|apply str_not_empty].
        -- right. left. eexists. reflexivity.
        -- right. right. exists p, e. auto.
      * right. left. eexists. reflexivity.
      * right. right. exists p, e. auto.
    + apply truthy_false in Hp. subst p.
      change (find_browser w (Some "")) with (find_browser w None).
      unfold find_browser.
      destruct (search_candidates w candidates) as [r|] eqn:Hs.
      * left. exists r. split; [reflexivity|].
        destruct (search_sound w _ _ Hs) as (_ & c & _ & _ & _ & Hc).
        now apply resolves_which in Hc.
      * right. left. eexists. reflexivity.
  - unfold find_browser.
    destruct (search_candidates w candidates) as [r|] eqn:Hs.
    + left. exists r. split; [reflexivity|].
      destruct (search_sound w _ _ Hs) as (_ & c & _ & _ & _ & Hc).
      now apply resolves_which in Hc.
    + right. left. eexists. reflexivity.
Qed.

(** X2: what the search returns is what [shutil.which] answered for one
    of the five names, every name before it having failed to resolve; and
    when it raises, it is the "no browser" error and no name resolved. *)
Theorem find_browser_search_sound (w : World) :
  (forall r : string,
     find_browser w None = Returned r ->
     exists before c after,
       candidates = (before ++ c :: after)%list
       /\ Forall (fun c' => resolves w c' = None) before
       /\ w_which w c = Some r /\ r <> "")
  /\ (forall e : exn,
        find_browser w None = Raised e ->
        e = FileNotFoundError not_found_message
        /\ Forall (fun c => resolves w c = None) candidates).
Proof.
  unfold find_browser. split.
  - intros r H.
    destruct (search_candidates w candidates) as [x|] eqn:Hs; [|discriminate].
    injection H as ->.
    destruct (search_sound w _ _ Hs) as (before & c & after & Hsplit & Hb & Hc).
    exists before, c, after. split; [exact Hsplit|]. split; [exact Hb|].
    now apply resolves_which.
  - intros e H.
    destruct (search_candidates w candidates) as [x|] eqn:Hs; [discriminate|].
    injection H as <-. split; [reflexivity|].
    now apply search_none_inv.
Qed.

Lemma find_browser_search_sound_witness :
  find_browser Examples.failing_world None = Returned "/usr/bin/chromium"
  /\ exists before c after,
       candidates = (before ++ c :: after)%list
       /\ Forall (fun c' => resolves Examples.failing_world c' = None) before
       /\ w_which Examples.failing_world c = Some "/usr/bin/chromium"
       /\ "/usr/bin/chromium" <> "".
Proof.
  split; [reflexivity|].
  exact (proj1 (find_browser_search_sound Examples.failing_world)
           "/usr/bin/chromium" eq_refl).
Defined.

(** X3: the path [find_browser] returns for an explicit path is accepted
    and returned unchanged when it is passed back as the explicit path. *)
Theorem find_browser_result_stable (w : World) (p b : string) :
  p <> "" ->
  find_browser w (Some p) = Returned b ->
  find_browser w (Some b) = Returned b.
Proof.
  intros Hp. rewrite (find_browser_given w p Hp).
  destruct (pathlib_fs.is_file w (pathlib.of_str p)) as [[|]|e] eqn:Hf;
    [|discriminate|discriminate].
  destruct (pathlib_fs.exists_ w (pathlib.of_str p)) as [[|]|e] eqn:He;
    [|discriminate|discriminate].
  intros [= <-].
  rewrite find_browser_given by apply str_not_empty.
  unfold pathlib_fs.is_file, pathlib_fs.exists_ in *.
  rewrite str_of_str_idempotent, Hf, He. reflexivity.
Qed.

Lemma find_browser_result_stable_witness :
  "./chrome" <> ""
  /\ find_browser Examples.failing_world (Some "./chrome") = Returned "chrome"
  /\ find_browser Examples.failing_world (Some "chrome") = Returned "chrome".
Proof.
  assert (Hp : "./chrome" <> "") by discriminate.
  split; [exact Hp|]. split; [reflexivity|].
  exact (find_browser_result_stable Examples.failing_world "./chrome" "chrome"
           Hp eq_refl).
Defined.

(** X4: an explicit path is taken up to the way pathlib spells it: a
    leading [./] in front of a relative path and a slash after the last
    component change neither the result nor the error. *)
Theorem find_browser_explicit_spelling (w : World) (p : string) :
  p <> "" ->
  (PyStr.leading "/"%char p = 0 ->
   find_browser w (Some ("./" ++ p)) = find_browser w (Some p))
  /\ (PyStr.drop (PyStr.leading "/"%char p) p <> "" ->
      find_browser w (Some (p ++ "/")) = find_browser w (Some p)).
Proof.
  intros Hp. split; intros H.
  - rewrite (find_browser_given w p Hp), find_browser_given by discriminate.
    now rewrite (of_str_dot_slash p H).
  - rewrite (find_browser_given w p Hp), find_browser_given
      by (destruct p; [congruence|discriminate]).
    now rewrite (of_str_trailing_slash p H).
Qed.

Lemma find_browser_explicit_spelling_witness :
  "/usr/bin/chromium" <> ""
  /\ PyStr.drop (PyStr.leading "/"%char "/usr/bin/chromium") "/usr/bin/chromium"
     <> ""
  /\ find_browser Examples.failing_world (Some "/usr/bin/chromium/")
     = Returned "/usr/bin/chromium".
Proof.
  assert (Hp : "/usr/bin/chromium" <> "") by discriminate.
  assert (Hrel : PyStr.drop (PyStr.leading "/"%char "/usr/bin/chromium")
                   "/usr/bin/chromium" <> "") by discriminate.
  split; [exact Hp|]. split; [exact Hrel|].
  exact (eq_trans
           (proj2 (find_browser_explicit_spelling Examples.failing_world
                     "/usr/bin/chromium" Hp) Hrel)
           eq_refl).
Defined.

(** ** The URL and the directory served *)

Section UrlReachesFile.
Import PyStr pathlib.

Lemma forallb_removelast {A} (f : A -> bool) (l : list A) :
  forallb f l = true -> forallb f (removelast l) = true.
Proof.
  induction l as [|x l IH]; [reflexivity|].
  intros H. simpl in H. apply andb_true_iff in H as [Hx Hl].
  destruct l as [|y l]; [reflexivity|].
  change (removelast (x :: y :: l)) with (x :: removelast (y :: l)).
  cbn [forallb]. now rewrite Hx, IH.
Qed.

Lemma forallb_last {A} (f : A -> bool) (l : list A) (d : A) :
  l <> [] -> forallb f l = true -> f (last l d) = true.
Proof.
  induction l as [|x l IH]; [congruence|].
  intros _ H. simpl in H. apply andb_true_iff in H as [Hx Hl].
  destruct l as [|y l]; [exact Hx|].
  change (last (x :: y :: l) d) with (last (y :: l) d).
  apply IH; [discriminate|exact Hl].
Qed.

Lemma named_has_parts (p : Path) : name p <> "" -> parts p <> [].
Proof. unfold name. destruct (parts p); [now intros H|discriminate]. Qed.

Lemma parent_valid (p : Path) : valid_path p = true -> valid_path (parent p) = true.
Proof.
  unfold valid_path, parent. cbn [root parts]. intros H.
  apply andb_true_iff in H as [Hr Hps].
  now rewrite Hr, forallb_removelast.
Qed.

Lemma name_no_slash (p : Path) :
  valid_path p = true -> name p <> "" -> string_forall not_slash (name p) = true.
Proof.
  unfold valid_path. intros H Hname.
  apply andb_true_iff in H as [_ Hps].
  pose proof (forallb_last _ (parts p) "" (named_has_parts p Hname) Hps) as H.
  now apply andb_true_iff in H as [_ H].
Qed.

Lemma quote_byte_no_slash (c : ascii) :
  implb (not_slash c) (string_forall not_slash (urllib.quote_byte c)) = true.
Proof. destruct c as [[] [] [] [] [] [] [] []]; reflexivity. Qed.

Lemma quote_no_slash (s : string) :
  string_forall not_slash s = true ->
  string_forall not_slash (urllib.quote_from_bytes s) = true.
Proof.
  induction s as [|c s IH]; simpl; [reflexivity|].
  intros H. apply andb_true_iff in H as [Hc Hs].
  rewrite string_forall_append, (IH Hs), andb_true_r.
  pose proof (quote_byte_no_slash c) as Hq. now rewrite Hc in Hq.
Qed.

Lemma quote_safe_verbatim (s : string) :
  string_forall urllib.always_safe s = true -> urllib.quote_from_bytes s = s.
Proof.
  induction s as [|c s IH]; simpl; [reflexivity|].
  intros H. apply andb_true_iff in H as [Hc Hs].
  unfold urllib.quote_byte. rewrite Hc, (IH Hs). reflexivity.
Qed.

End UrlReachesFile.

(** X6: the directory [export_to_pdf] serves and the URL it gives the
    browser point at the HTML file: the URL path is one segment with no
    slash in it, and the served directory followed by the decoded segment
    is the path of the HTML file; a name made of letters, digits and
    [_.-~] appears in the URL as it is.  (A URL is handed over once the
    server is up and the file name is quoted.) *)
Theorem export_url_reaches_html_file (w : World)
    (html_path output_pdf : pathlib.Path) (wait_ms : Z) (browser : string)
    (t0 : trace) :
  server_starts w ->
  urllib.valid_utf8 (pathlib.name html_path) = true ->
  valid_path html_path = true ->
  pathlib.name html_path <> "" ->
  exists directory segment : string,
    In (ServerBind directory "127.0.0.1" (w_ephemeral_port w))
       (trace_of (export_to_pdf w html_path output_pdf wait_ms browser) t0)
    /\ In (SubprocessRun
             (build_print_command browser
                ("http://127.0.0.1:" ++ PyStr.of_int (w_ephemeral_port w)
                 ++ "/" ++ segment) output_pdf wait_ms))
          (trace_of (export_to_pdf w html_path output_pdf wait_ms browser) t0)
    /\ string_forall not_slash segment = true
    /\ pathlib.mkPath (pathlib.root (pathlib.of_str directory))
         (pathlib.parts (pathlib.of_str directory) ++ [unquote segment])%list
       = html_path
    /\ (string_forall urllib.always_safe (pathlib.name html_path) = true ->
        segment = pathlib.name html_path).
Proof.
  intros Hstart Hutf8 Hvalid Hname.
  exists (pathlib.str (pathlib.parent html_path)),
         (urllib.quote_from_bytes (pathlib.name html_path)).
  unfold trace_of. rewrite (export_to_pdf_run _ _ _ _ _ _ Hstart Hutf8).
  cbn [snd]. unfold export_events.
  split; [|split; [|split; [|split]]].
  - apply in_or_app. right. left. reflexivity.
  - apply in_or_app. right. right. right. left. reflexivity.
  - apply quote_no_slash, name_no_slash; assumption.
  - rewrite of_str_str by now apply parent_valid.
    rewrite unquote_quote. unfold pathlib.parent, pathlib.name.
    cbn [pathlib.root pathlib.parts].
    rewrite <- app_removelast_last by now apply named_has_parts.
    now destruct html_path.
  - apply quote_safe_verbatim.
Qed.

Lemma export_url_reaches_html_file_witness :
  server_starts Examples.working_world
  /\ urllib.valid_utf8 (pathlib.name Examples.report_htm) = true
  /\ valid_path Examples.report_htm = true
  /\ pathlib.name Examples.report_htm <> ""
  /\ exists directory segment : string,
       In (ServerBind directory "127.0.0.1" 40123)
          (trace_of (export_to_pdf Examples.working_world Examples.report_htm
                       Examples.report_pdf 5000 "/usr/bin/chromium") [])
       /\ In (SubprocessRun
                (build_print_command "/usr/bin/chromium"
                   ("http://127.0.0.1:" ++ PyStr.of_int 40123 ++ "/" ++ segment)
                   Examples.report_pdf 5000))
             (trace_of (export_to_pdf Examples.working_world
                          Examples.report_htm Examples.report_pdf 5000
                          "/usr/bin/chromium") [])
       /\ string_forall not_slash segment = true
       /\ pathlib.mkPath (pathlib.root (pathlib.of_str directory))
            (pathlib.parts (pathlib.of_str directory) ++ [unquote segment])%list
          = Examples.report_htm
       /\ (string_forall urllib.always_safe (pathlib.name Examples.report_htm)
           = true ->
           segment = pathlib.name Examples.report_htm).
Proof.
  assert (Hstart : server_starts Examples.working_world)
    by (split; reflexivity).
  assert (Hname : pathlib.name Examples.report_htm <> "") by discriminate.
  split; [exact Hstart|]. split; [reflexivity|]. split; [reflexivity|].
  split; [exact Hname|].
  exact (export_url_reaches_html_file Examples.working_world
           Examples.report_htm Examples.report_pdf 5000 "/usr/bin/chromium" []
           Hstart eq_refl eq_refl Hname).
Defined.

(** ** main *)

Section Main.
Import pathlib.

Variable w : World.
Variable args : Namespace.

(** [main], step by step: the HTML check, the output path, the browser,
    then the export. *)
Lemma main_run (t0 : trace) :
  main w args t0 =
    let html_path := w_resolve w (w_expanduser w (html_file args)) in
    match pathlib_fs.is_file w html_path with
    | Raised e => (Raised e, t0)
    | Returned false =>
        (Raised (FileNotFoundError
                   ("HTML file not found: " ++ str html_path)), t0)
    | Returned true =>
        match chosen_output w args html_path with
        | Raised e => (Raised e, t0)
        | Returned out =>
            match find_browser w (browser args) with
            | Raised e => (Raised e, t0)
            | Returned b => export_to_pdf w html_path out (wait_ms args) b t0
            end
        end
    end.
Proof.
  unfold main, chosen_output. cbv zeta. unfold bind at 1, lift at 1.
  destruct (pathlib_fs.is_file w _) as [[|]|e]; cbn [negb];
    [|reflexivity|reflexivity].
  unfold bind, lift.
  destruct (output_pdf args) as [o|].
  - destruct (find_browser w (browser args)); reflexivity.
  - destruct (pathlib_fs.with_suffix _ ".pdf"); [|reflexivity].
    destruct (find_browser w (browser args)); reflexivity.
Qed.

Lemma append_inv_head (a b c : string) : a ++ b = a ++ c -> b = c.
Proof. induction a as [|x a IH]; simpl; [tauto|]. intros [= H]. auto. Qed.

End Main.

(** X7: [main] does nothing outside the process unless the HTML check
    passed and a browser was found.  When [is_file()] on the resolved HTML
    path answers no, [main] raises "HTML file not found" with that path;
    when [is_file()] itself raises, that error comes out; when
    [find_browser] raises, its error comes out.  In each case nothing was
    bound, started or run. *)
Theorem main_fails_before_serving (w : World) (args : Namespace) (t0 : trace) :
  let html_path := w_resolve w (w_expanduser w (html_file args)) in
  (pathlib_fs.is_file w html_path = Returned false ->
   main w args t0
   = (Raised (FileNotFoundError
                ("HTML file not found: " ++ pathlib.str html_path)), t0))
  /\ (forall e : exn,
        pathlib_fs.is_file w html_path = Raised e ->
        main w args t0 = (Raised e, t0))
  /\ (forall e : exn,
        find_browser w (browser args) = Raised e ->
        trace_of (main w args) t0 = t0
        /\ exists e', result_of (main w args) t0 = Raised e')
  /\ (trace_of (main w args) t0 <> t0 ->
      pathlib_fs.is_file w html_path = Returned true
      /\ exists b, find_browser w (browser args) = Returned b).
Proof.
  cbv zeta. unfold trace_of, result_of. rewrite main_run. cbv zeta.
  split; [|split; [|split]].
  - now intros ->.
  - now intros e ->.
  - intros e ->.
    destruct (pathlib_fs.is_file w _) as [[|]|e1];
      [|split; [reflexivity|eexists; reflexivity]..].
    destruct (chosen_output w args _) as [out|e2];
      split; try reflexivity; eexists; reflexivity.
  - destruct (pathlib_fs.is_file w _) as [[|]|e1];
      [|intros H; now contradiction H..].
    destruct (chosen_output w args _) as [out|e2];
      [|intros H; now contradiction H].
    destruct (find_browser w (browser args)) as [b|e3];
      [|intros H; now contradiction H].
    intros _. split; [reflexivity|now exists b].
Qed.

Lemma main_fails_before_serving_witness :
  pathlib_fs.is_file Examples.failing_world
    (w_resolve Examples.failing_world
       (w_expanduser Examples.failing_world
          (html_file MoreExamples.missing_args))) = Returned false
  /\ main Examples.failing_world MoreExamples.missing_args []
     = (Raised (FileNotFoundError "HTML file not found: /home/user/missing.htm"),
        []).
Proof.
  split; [reflexivity|].
  exact (proj1 (main_fails_before_serving Examples.failing_world
                  MoreExamples.missing_args []) eq_refl).
Defined.

(** X8: whatever the arguments and the machine, [main] runs the browser at
    most once and binds at most one listener.  What it does outside the
    process is one of: nothing; the bind alone (the thread could not be
    started); the bind and the start of the thread (the file name could
    not be quoted); or a whole export, in which the subprocess run is
    followed by the shutdown of that listener and the join of that thread.
    So once the browser has been run the listener is always shut down. *)
Theorem main_serves_at_most_once (w : World) (args : Namespace) (t0 : trace) :
  let html_path := w_resolve w (w_expanduser w (html_file args)) in
  let bound :=
    ServerBind (pathlib.str (pathlib.parent html_path)) "127.0.0.1"
      (w_ephemeral_port w) in
  trace_of (main w args) t0 = t0
  \/ (w_thread_error w <> None
      /\ trace_of (main w args) t0 = (t0 ++ [bound])%list)
  \/ (urllib.valid_utf8 (pathlib.name html_path) = false
      /\ trace_of (main w args) t0
         = (t0 ++ [bound; ThreadStart (server_thread w html_path)])%list)
  \/ exists (out : pathlib.Path) (b : string),
       chosen_output w args html_path = Returned out
       /\ find_browser w (browser args) = Returned b
       /\ trace_of (main w args) t0
          = (t0 ++ export_events w html_path out (wait_ms args) b)%list.
Proof.
  cbv zeta. unfold trace_of. rewrite main_run. cbv zeta.
  destruct (pathlib_fs.is_file w _) as [[|]|e1]; [|now left..].
  destruct (chosen_output w args _) as [out|e2]; [|now left].
  destruct (find_browser w (browser args)) as [b|e3]; [|now left].
  rewrite export_to_pdf_steps.
  destruct (w_bind_error w) as [eb|]; [now left|].
  destruct (w_thread_error w) as [et|] eqn:Ht.
  - right. left. split; [discriminate|reflexivity].
  - destruct (urllib.valid_utf8 _) eqn:Hn.
    + right. right. right. exists out, b. now repeat split.
    + right. right. left. split; reflexivity.
Qed.

(** X9: [main] returns normally only if the resolved HTML path is a
    regular file, an output path is settled, a browser is found, the
    listener is bound and its thread started, the file name is valid
    UTF-8, and the browser run on the command built from them exits with
    status 0. *)
Theorem main_succeeds_only_if (w : World) (args : Namespace) (t0 : trace) :
  let html_path := w_resolve w (w_expanduser w (html_file args)) in
  result_of (main w args) t0 = Returned tt ->
  pathlib_fs.is_file w html_path = Returned true
  /\ server_starts w
  /\ urllib.valid_utf8 (pathlib.name html_path) = true
  /\ exists (out : pathlib.Path) (b out_text err_text : string),
       chosen_output w args html_path = Returned out
       /\ find_browser w (browser args) = Returned b
       /\ w_run w (export_command w html_path out (wait_ms args) b)
          = Exited 0 out_text err_text.
Proof.
  cbv zeta. unfold result_of, server_starts. rewrite main_run. cbv zeta.
  destruct (pathlib_fs.is_file w _) as [[|]|e1]; [|discriminate..].
  destruct (chosen_output w args _) as [out|e2]; [|discriminate].
  destruct (find_browser w (browser args)) as [b|e3]; [|discriminate].
  rewrite export_to_pdf_steps.
  destruct (w_bind_error w) as [eb|]; [discriminate|].
  destruct (w_thread_error w) as [et|]; [discriminate|].
  destruct (urllib.valid_utf8 _); [|discriminate].
  cbn [fst].
  destruct (w_run w (export_command w _ out (wait_ms args) b))
    as [rc so se|e] eqn:Hrun; [|discriminate].
  destruct (rc =? 0)%Z eqn:Hrc; [|discriminate].
  apply Z.eqb_eq in Hrc; subst rc. intros _.
  repeat split. now exists out, b, so, se.
Qed.

Lemma main_succeeds_only_if_witness :
  result_of (main Examples.working_world MoreExamples.explicit_args) []
  = Returned tt
  /\ pathlib_fs.is_file Examples.working_world Examples.report_htm
     = Returned true
  /\ exists (out : pathlib.Path) (b out_text err_text : string),
       chosen_output Examples.working_world MoreExamples.explicit_args
         Examples.report_htm = Returned out
       /\ find_browser Examples.working_world (Some "/usr/bin/chromium")
          = Returned b
       /\ w_run Examples.working_world
            (export_command Examples.working_world Examples.report_htm out
               5000 b)
          = Exited 0 out_text err_text.
Proof.
  pose proof (main_succeeds_only_if Examples.working_world
                MoreExamples.explicit_args [] eq_refl) as H.
  split; [reflexivity|]. split; [exact (proj1 H)|].
  exact (proj2 (proj2 (proj2 H))).
Defined.

(** X10: with no output argument, the output path [main] settles on is the
    HTML file itself exactly when the name of the HTML file already ends in
    the suffix [.pdf]; for every other name the two paths differ. *)
Theorem default_output_is_input_iff (w : World) (args : Namespace)
    (html_path : pathlib.Path) :
  output_pdf args = None ->
  pathlib.name html_path <> "" ->
  (chosen_output w args html_path = Returned html_path
   <-> pathlib.suffix html_path = ".pdf").
Proof.
  intros Hnone Hname. unfold chosen_output. rewrite Hnone.
  rewrite (with_suffix_pdf html_path Hname).
  pose proof (named_has_parts html_path Hname) as Hparts.
  pose proof (name_stem_suffix html_path) as Hsplit.
  unfold pathlib.name in Hsplit. revert Hsplit.
  generalize (pathlib.stem html_path) as st.
  generalize (pathlib.suffix html_path) as sf.
  destruct html_path as [r ps]. cbn [pathlib.root pathlib.parts] in *.
  intros sf st Hsplit. split.
  - intros [= H].
    rewrite (app_removelast_last "" Hparts) in H at 2.
    apply app_inv_head in H. injection H as H.
    rewrite Hsplit in H. apply append_inv_head in H. now symmetry.
  - intros ->. rewrite <- Hsplit.
    now rewrite <- app_removelast_last.
Qed.

Lemma default_output_is_input_iff_witness :
  output_pdf Examples.report_args = None
  /\ pathlib.name MoreExamples.slides_pdf <> ""
  /\ pathlib.suffix MoreExamples.slides_pdf = ".pdf"
  /\ chosen_output Examples.working_world Examples.report_args
       MoreExamples.slides_pdf
     = Returned MoreExamples.slides_pdf.
Proof.
  assert (Hname : pathlib.name MoreExamples.slides_pdf <> "") by discriminate.
  split; [reflexivity|]. split; [exact Hname|]. split; [reflexivity|].
  exact (proj2 (default_output_is_input_iff Examples.working_world
                  Examples.report_args MoreExamples.slides_pdf eq_refl Hname)
           eq_refl).
Defined.

(** X12: once the listener is bound, its thread started and the file name
    quoted, the call is inside its guarded block: whatever
    [subprocess.run] does (exit status 0, a non-zero status, or an
    exception of its own), the call ends with the shutdown of that
    listener followed by the join of that thread with a timeout of 2
    seconds, and nothing after them. *)
Theorem export_guarded_block_releases_server (w : World)
    (html_path output_pdf : pathlib.Path) (wait_ms : Z) (browser : string)
    (t0 : trace) :
  server_starts w ->
  urllib.valid_utf8 (pathlib.name html_path) = true ->
  trace_of (export_to_pdf w html_path output_pdf wait_ms browser) t0
  = (t0
     ++ [ ServerBind (pathlib.str (pathlib.parent html_path))
            "127.0.0.1" (w_ephemeral_port w);
          ThreadStart (server_thread w html_path);
          SubprocessRun (export_command w html_path output_pdf wait_ms browser) ]
     ++ [ ServerShutdown (bound_server w html_path);
          ThreadJoin (server_thread w html_path) 2 ])%list
  /\ (forall e : exn,
        w_run w (export_command w html_path output_pdf wait_ms browser)
        = RunRaised e ->
        result_of (export_to_pdf w html_path output_pdf wait_ms browser) t0
        = Raised e).
Proof.
  intros Hstart Hname. unfold trace_of, result_of.
  rewrite (export_to_pdf_run _ _ _ _ _ _ Hstart Hname). cbn [fst snd].
  split; [reflexivity|]. now intros e ->.
Qed.

Lemma export_guarded_block_releases_server_witness :
  server_starts Examples.unlaunchable_world
  /\ urllib.valid_utf8 (pathlib.name Examples.report_htm) = true
  /\ result_of (export_to_pdf Examples.unlaunchable_world Examples.report_htm
                  Examples.report_pdf 10000 "/usr/bin/chromium") []
     = Raised (OSError "Permission denied")
  /\ trace_of (export_to_pdf Examples.unlaunchable_world Examples.report_htm
                 Examples.report_pdf 10000 "/usr/bin/chromium") []
     = [ ServerBind "/home/user" "127.0.0.1" 40123;
         ThreadStart (server_thread Examples.unlaunchable_world
                        Examples.report_htm);
         SubprocessRun
           (export_command Examples.unlaunchable_world Examples.report_htm
              Examples.report_pdf 10000 "/usr/bin/chromium");
         ServerShutdown (bound_server Examples.unlaunchable_world
                           Examples.report_htm);
         ThreadJoin (server_thread Examples.unlaunchable_world
                       Examples.report_htm) 2 ].
Proof.
  assert (Hstart : server_starts Examples.unlaunchable_world)
    by (split; reflexivity).
  split; [exact Hstart|]. split; [reflexivity|]. split; [reflexivity|].
  exact (proj1 (export_guarded_block_releases_server
                  Examples.unlaunchable_world Examples.report_htm
                  Examples.report_pdf 10000 "/usr/bin/chromium" []
                  Hstart eq_refl)).
Defined.
